(** * Smart Fridge Chef: the RAG pipeline and its services

    A shallow embedding of

      - [backend/app/models/recipe.py]            (the records),
      - [backend/app/services/reranker_service.py] ([RerankerService]),
      - [backend/app/services/llm_service.py]      ([LLMService]),
      - [backend/app/services/rag_pipeline.py]     ([RAGPipeline]),

    and the properties of the pipeline that the specification states.

    Conventions of the embedding.
      - A Python [str] is the [string] of its UTF-8 bytes.  [in],
        [replace] of an ASCII character and [join] act on the bytes as on
        the characters; [split] recognises the encoding of every character
        that [str.isspace] accepts; [str.lower], which folds every cased
        character of Unicode, is taken from the run time, as a collaborator;
        [strip] and the slices of the prompt act on the ASCII range.
      - A Python [int] is a [Z]; a relevance score is a real number: the
        rounding of floating point numbers and NaN are not modelled.
      - The services whose code is outside the four files above (the FAISS
        index, the embedding model, the recipe corpus, the cross-encoder and
        the Gemini client) are collaborators: each call is a function of the
        state of the outside world that returns or raises, and gives the next
        state of the world.  Nothing is assumed about them but the shape of
        the answer of [predict], one score for each pair, and that
        [str.lower] of the empty string is the empty string.
      - The mutable attributes of the two singletons [reranker_service] and
        [llm_service] are part of the program state, which is threaded through
        every method; an exception leaves the state as it was when raised.
      - Logging is left out, except where formatting the message can raise. *)

From Stdlib Require Import String Ascii List ZArith Lia Bool Arith.
From Stdlib Require Import Reals Lra.
From Stdlib Require Import Sorted Permutation.
From Stdlib Require Import DecimalString.
Import ListNotations.

Local Open Scope string_scope.
Local Open Scope list_scope.

(* ================================================================== *)
(** ** Python strings *)
(* ================================================================== *)

Module PyStr.

(** [c.lower()] for an ASCII character: ['A'..'Z'] go to ['a'..'z'].
    This is [str.lower] on ASCII text, which is what the concrete
    collaborators of the examples use; the pipeline takes [str.lower] from
    its collaborators. *)
Definition lower_char (c : ascii) : ascii :=
  let n := nat_of_ascii c in
  if (65 <=? n)%nat && (n <=? 90)%nat then ascii_of_nat (n + 32) else c.

(** [s.lower()] for ASCII text *)
Fixpoint lower (s : string) : string :=
  match s with
  | EmptyString => EmptyString
  | String c s' => String (lower_char c) (lower s')
  end.

(** [sub in s]: the substring test. *)
Fixpoint contains (sub s : string) : bool :=
  match s with
  | EmptyString => String.prefix sub EmptyString
  | String _ s' => String.prefix sub s || contains sub s'
  end.

(** [s.replace(c, '')] for a one-character [c]. *)
Fixpoint remove_char (c : ascii) (s : string) : string :=
  match s with
  | EmptyString => EmptyString
  | String d s' =>
      if Ascii.eqb d c then remove_char c s' else String d (remove_char c s')
  end.

(** [sep.join(parts)] *)
Definition join (sep : string) (parts : list string) : string :=
  String.concat sep parts.

(** White space in the sense of [str.isspace], ASCII range. *)
Definition is_space (c : ascii) : bool :=
  let n := nat_of_ascii c in
  ((9 <=? n)%nat && (n <=? 13)%nat) ||
  ((28 <=? n)%nat && (n <=? 32)%nat).

(** The characters that [str.isspace] accepts beyond ASCII, by their UTF-8
    bytes: U+0085 and U+00A0 (two bytes); U+1680, U+2000 to U+200A, U+2028,
    U+2029, U+202F, U+205F and U+3000 (three bytes). *)
Definition two_byte_space (a b : ascii) : bool :=
  (nat_of_ascii a =? 194)%nat
  && ((nat_of_ascii b =? 133)%nat || (nat_of_ascii b =? 160)%nat).

Definition three_byte_space (a b c : ascii) : bool :=
  ((nat_of_ascii a =? 225)%nat && (nat_of_ascii b =? 154)%nat
   && (nat_of_ascii c =? 128)%nat)
  || ((nat_of_ascii a =? 226)%nat && (nat_of_ascii b =? 128)%nat
      && (((128 <=? nat_of_ascii c)%nat && (nat_of_ascii c <=? 138)%nat)
          || (nat_of_ascii c =? 168)%nat || (nat_of_ascii c =? 169)%nat
          || (nat_of_ascii c =? 175)%nat))
  || ((nat_of_ascii a =? 226)%nat && (nat_of_ascii b =? 129)%nat
      && (nat_of_ascii c =? 159)%nat)
  || ((nat_of_ascii a =? 227)%nat && (nat_of_ascii b =? 128)%nat
      && (nat_of_ascii c =? 128)%nat).

(** The number of bytes of the white-space character at the head of [s];
    0 when [s] does not start with one. *)
Definition space_len (s : string) : nat :=
  match s with
  | EmptyString => 0
  | String a r =>
      if is_space a then 1
      else
        match r with
        | EmptyString => 0
        | String b r' =>
            if two_byte_space a b then 2
            else
              match r' with
              | EmptyString => 0
              | String c _ => if three_byte_space a b c then 3 else 0
              end
        end
  end.

(** The word read so far, if any. *)
Definition flush (cur : list ascii) : list string :=
  match cur with
  | [] => []
  | _ => [string_of_list_ascii (rev cur)]
  end.

(** [s.split()] with no argument: the maximal runs of characters that are
    not white space.  [cur] is the word being read, reversed; [skip] is the
    number of bytes left of the white-space character being passed. *)
Fixpoint split_aux (skip : nat) (cur : list ascii) (s : string) : list string :=
  match s with
  | EmptyString => flush cur
  | String c s' =>
      match skip with
      | S k => split_aux k cur s'
      | O =>
          match space_len s with
          | O => split_aux 0 (c :: cur) s'
          | S k => flush cur ++ split_aux k [] s'
          end
      end
  end.

Definition split (s : string) : list string := split_aux 0 [] s.

(** [s.lstrip()], [s.rstrip()] and [s.strip()] *)
Fixpoint lstrip (s : string) : string :=
  match s with
  | EmptyString => EmptyString
  | String c s' => if is_space c then lstrip s' else s
  end.

Fixpoint rstrip (s : string) : string :=
  match s with
  | EmptyString => EmptyString
  | String c s' =>
      match rstrip s' with
      | EmptyString => if is_space c then EmptyString else String c EmptyString
      | r => String c r
      end
  end.

Definition strip (s : string) : string := rstrip (lstrip s).

(** [s[:n]] for [n >= 0] *)
Definition take (n : nat) (s : string) : string := String.substring 0 n s.

(** [str(n)] for a natural number *)
Definition of_nat (n : nat) : string := NilEmpty.string_of_uint (Nat.to_uint n).

(** Truth value of a string: [bool(s)] *)
Definition truthy (s : string) : bool :=
  match s with EmptyString => false | _ => true end.

End PyStr.

(* ================================================================== *)
(** ** Python lists: slices and indexing *)
(* ================================================================== *)

Module PyList.

Section Ops.
Context {A : Type}.

(** [l[:k]]: a negative [k] counts from the end. *)
Definition slice_to (l : list A) (k : Z) : list A :=
  if (0 <=? k)%Z then firstn (Z.to_nat k) l
  else firstn (Z.to_nat (Z.of_nat (length l) + k)) l.

(** [l[i]]: a negative [i] counts from the end; [None] stands for
    [IndexError]. *)
Definition index (l : list A) (i : Z) : option A :=
  if (0 <=? i)%Z then nth_error l (Z.to_nat i)
  else if (0 <=? Z.of_nat (length l) + i)%Z
       then nth_error l (Z.to_nat (Z.of_nat (length l) + i))
       else None.

(** Truth value of a list: [bool(l)] *)
Definition truthy (l : list A) : bool :=
  match l with [] => false | _ => true end.
End Ops.

End PyList.

(* ================================================================== *)
(** ** models/recipe.py *)
(* ================================================================== *)

Record Recipe := mkRecipe {
  Title : string;
  Ingredients : string;
  Instructions : option string;
  Image_Name : string;
  Cleaned_Ingredients : string
}.

Record RecipeWithMatch := mkRecipeWithMatch {
  base : Recipe;
  matchingCount : Z;
  matchingIngredients : list string
}.

(** Building a [Recipe] from the fields of a [RecipeWithMatch] (the list
    comprehensions of [_retrieve]): the two extra keys are ignored. *)
Definition to_recipe (r : RecipeWithMatch) : Recipe := base r.

(** Truth value of an [Optional[str]]. *)
Definition truthy_opt (o : option string) : bool :=
  match o with
  | None => false
  | Some s => PyStr.truthy s
  end.

(** A value stored in the [metadata] dictionary of a pipeline result. *)
Inductive MetaValue :=
| MInt (n : Z)
| MBool (b : bool)
| MStages (stages : list string).

(** A Python [dict] with string keys, in insertion order. *)
Definition Dict := list (string * MetaValue).

Fixpoint dict_get (d : Dict) (k : string) : option MetaValue :=
  match d with
  | [] => None
  | (k', v) :: d' => if String.eqb k' k then Some v else dict_get d' k
  end.

(** The dictionary returned by [RAGPipeline.process]. *)
Record PipelineResult := mkPipelineResult {
  recipes : list RecipeWithMatch;
  explanation : option string;
  metadata : Dict
}.

(* ================================================================== *)
(** ** Exceptions, collaborators and the program state *)
(* ================================================================== *)

(** An exception, with its message.  Every exception of the model is an
    instance of [Exception], so [except Exception] handles each one. *)
Definition exn := string.

Inductive outcome (A : Type) : Type :=
| Ret (a : A)
| Raise (e : exn).
Arguments Ret {A} a.
Arguments Raise {A} e.

(** The code outside the four files.  [World] is whatever state these
    services keep; a call returns or raises and gives the next world. *)
Record Externals := mkExternals {
  World : Type;
  CrossEncoder : Type;
  GenerativeModel : Type;
  (* faiss_service (with embedding_service) *)
  faiss_is_loaded : World -> outcome bool * World;
  faiss_search_by_ingredients :
    list string -> Z -> World -> outcome (list R * list Z) * World;
  (* recipe_service *)
  get_total_count : World -> outcome Z * World;
  get_all_recipes : Z -> World -> outcome (list Recipe) * World;
  find_suitable_recipes :
    list string -> bool -> Z -> World -> outcome (list RecipeWithMatch) * World;
  (* sentence_transformers.CrossEncoder: the constructor and [predict] *)
  CrossEncoder_init : string -> World -> outcome CrossEncoder * World;
  CrossEncoder_predict :
    CrossEncoder -> list (string * string) -> Z -> World ->
    outcome (list R) * World;
  (* google.generativeai: [configure], [GenerativeModel] and
     [generate_content(...).text] *)
  genai_configure : string -> World -> outcome unit * World;
  genai_GenerativeModel : string -> World -> outcome GenerativeModel * World;
  generate_content_text :
    GenerativeModel -> string -> R -> Z -> World -> outcome string * World;
  (* the run time: [str.lower] *)
  str_lower : string -> string;
  (* what is known of them: [predict] answers with one score for each pair,
     and the empty string has no character to fold *)
  predict_shape :
    forall m pairs batch w scores w',
      CrossEncoder_predict m pairs batch w = (Ret scores, w') ->
      length scores = length pairs;
  str_lower_empty : str_lower EmptyString = EmptyString
}.

(** The calls made to the collaborators, as recorded in the trace. *)
Inductive Event :=
| EIndexStatus
| EIndexSearch
| ECorpusCount
| ECorpusAll
| ELexicalSearch
| ERerankerLoad
| ERerankerPredict
| EGenaiConfigure
| EGenaiModel
| EGenaiGenerate.

(** The attributes of [reranker_service]. *)
Module RerankerAttrs.
Record t (X : Externals) := mk {
  model : option (CrossEncoder X);
  model_name : string;
  batch_size : Z;
  enabled : bool;
  _model_loaded : bool
}.
Arguments mk {X}.
Arguments model {X}.
Arguments model_name {X}.
Arguments batch_size {X}.
Arguments enabled {X}.
Arguments _model_loaded {X}.
End RerankerAttrs.

(** The attributes of [llm_service]. *)
Module LLMAttrs.
Record t (X : Externals) := mk {
  api_key : option string;
  model_name : string;
  max_tokens : Z;
  temperature : R;
  enabled : bool;
  model : option (GenerativeModel X);
  _model_loaded : bool
}.
Arguments mk {X}.
Arguments api_key {X}.
Arguments model_name {X}.
Arguments max_tokens {X}.
Arguments temperature {X}.
Arguments enabled {X}.
Arguments model {X}.
Arguments _model_loaded {X}.
End LLMAttrs.

(** The whole state: the outside world, the two singletons, and the calls
    made so far (most recent first). *)
Record State (X : Externals) := mkState {
  world : World X;
  reranker_service : RerankerAttrs.t X;
  llm_service : LLMAttrs.t X;
  trace : list Event
}.
Arguments mkState {X}.
Arguments world {X}.
Arguments reranker_service {X}.
Arguments llm_service {X}.
Arguments trace {X}.

(** *** The monad of state and exceptions *)

Definition M (X : Externals) (A : Type) : Type :=
  State X -> outcome A * State X.

Section Monad.
Context {X : Externals}.

Definition ret {A} (a : A) : M X A := fun s => (Ret a, s).

Definition raise {A} (e : exn) : M X A := fun s => (Raise e, s).

Definition bind {A B} (m : M X A) (k : A -> M X B) : M X B :=
  fun s =>
    match m s with
    | (Ret a, s') => k a s'
    | (Raise e, s') => (Raise e, s')
    end.

(** [try: m except Exception as e: h e] *)
Definition try_except {A} (m : M X A) (h : exn -> M X A) : M X A :=
  fun s =>
    match m s with
    | (Ret a, s') => (Ret a, s')
    | (Raise e, s') => h e s'
    end.

(** A call to a collaborator: it is recorded, and the world moves on
    whether the call returns or raises. *)
Definition call {A} (ev : Event)
    (f : World X -> outcome A * World X) : M X A :=
  fun s =>
    let '(o, w) := f (world s) in
    (o, mkState w (reranker_service s) (llm_service s) (ev :: trace s)).

Definition get_reranker : M X (RerankerAttrs.t X) :=
  fun s => (Ret (reranker_service s), s).

Definition set_reranker (r : RerankerAttrs.t X) : M X unit :=
  fun s => (Ret tt, mkState (world s) r (llm_service s) (trace s)).

Definition get_llm : M X (LLMAttrs.t X) :=
  fun s => (Ret (llm_service s), s).

Definition set_llm (l : LLMAttrs.t X) : M X unit :=
  fun s => (Ret tt, mkState (world s) (reranker_service s) l (trace s)).

(** Lifting a pure computation that can raise. *)
Definition lift {A} (o : outcome A) : M X A := fun s => (o, s).
End Monad.

Declare Scope py_scope.
Delimit Scope py_scope with py.
Notation "x <- m ;; k" := (bind m (fun x => k))
  (at level 61, m at next level, right associativity) : py_scope.
Notation "m ;;; k" := (bind m (fun _ => k))
  (at level 61, right associativity) : py_scope.
Local Open Scope py_scope.

(* ================================================================== *)
(** ** services/reranker_service.py *)
(* ================================================================== *)

(** [1 / (1 + np.exp(-x))] *)
Definition sigmoid (x : R) : R := (1 / (1 + exp (- x)))%R.

Definition Rleb (x y : R) : bool := if Rle_dec x y then true else false.

(** [l.sort(key=lambda x: x[1], reverse=True)]: a stable sort, so that of two
    entries with the same score the one that came first stays first. *)
Section SortDesc.
Context {A : Type}.

Fixpoint insert_desc (p : A * R) (l : list (A * R)) : list (A * R) :=
  match l with
  | [] => [p]
  | q :: l' =>
      if Rleb (snd q) (snd p) then p :: q :: l' else q :: insert_desc p l'
  end.

Definition sort_desc (l : list (A * R)) : list (A * R) :=
  fold_right insert_desc [] l.
End SortDesc.

Module RerankerService.
Import RerankerAttrs.

Section Methods.
Context {X : Externals}.

(** [_load_model]: the model is built once; a failure switches the
    service off and is raised again. *)
Definition _load_model : M X unit :=
  self <- get_reranker ;;
  if negb (_model_loaded self) && enabled self then
    try_except
      (m <- call ERerankerLoad (CrossEncoder_init X (model_name self)) ;;
       set_reranker
         (mk (Some m) (model_name self) (batch_size self) (enabled self) true))
      (fun e =>
         self' <- get_reranker ;;
         set_reranker
           (mk (model self') (model_name self') (batch_size self') false false) ;;;
         raise e)
  else ret tt.

(** [_prepare_recipe_text] *)
Definition _prepare_recipe_text (recipe : Recipe) : string :=
  let parts : list string := [] in
  let parts :=
    if PyStr.truthy (Title recipe) then parts ++ [Title recipe] else parts in
  let ingredients_text :=
    if PyStr.truthy (Cleaned_Ingredients recipe)
    then Cleaned_Ingredients recipe else Ingredients recipe in
  let parts :=
    if PyStr.truthy ingredients_text then
      let ingredients_clean :=
        PyStr.remove_char "'"
          (PyStr.remove_char "]" (PyStr.remove_char "[" ingredients_text)) in
      parts ++ [("Ingredients: " ++ ingredients_clean)%string]
    else parts in
  let parts :=
    match Instructions recipe with
    | Some instructions =>
        if PyStr.truthy instructions then
          let words := PyStr.split instructions in
          let instructions :=
            if (300 <? length words)%nat
            then (PyStr.join " " (firstn 300 words) ++ "...")%string
            else instructions in
          parts ++ [("Instructions: " ++ instructions)%string]
        else parts
    | None => parts
    end in
  PyStr.join " " parts.

(** [_prepare_query_text] *)
Definition _prepare_query_text (ingredients : list string) : string :=
  if negb (PyList.truthy ingredients) then ""
  else if (length ingredients =? 1)%nat then
    ("Recipe with " ++ nth 0 ingredients "")%string
  else if (length ingredients <=? 3)%nat then
    ("Recipe with " ++ PyStr.join ", " (removelast ingredients)
       ++ " and " ++ last ingredients "")%string
  else
    ("Recipe with ingredients: " ++ PyStr.join ", " (firstn 5 ingredients)
       ++ " and more")%string.

(** [is_loaded] *)
Definition is_loaded : M X bool :=
  self <- get_reranker ;;
  ret (_model_loaded self
       && match model self with Some _ => true | None => false end
       && enabled self).

(** [[(recipe, 1.0) for recipe in recipes[:top_k]]] *)
Definition dummy_scores (recipes : list Recipe) (top_k : Z)
  : list (Recipe * R) :=
  map (fun recipe => (recipe, 1%R)) (PyList.slice_to recipes top_k).

(** The body of the second [try] of [rerank]. *)
Definition score_and_sort (query : string) (recipes : list Recipe)
    (top_k : Z) : M X (list (Recipe * R)) :=
  let pairs :=
    map (fun recipe => (query, _prepare_recipe_text recipe)) recipes in
  self <- get_reranker ;;
  scores <-
    match model self with
    | Some m =>
        call ERerankerPredict (CrossEncoder_predict X m pairs (batch_size self))
    | None => raise "AttributeError: 'NoneType' object has no attribute 'predict'"
    end ;;
  let normalized_scores := map sigmoid scores in
  let recipe_scores := combine recipes normalized_scores in
  let recipe_scores := sort_desc recipe_scores in
  let top_results := PyList.slice_to recipe_scores top_k in
  (* the debug message evaluates min(...) and max(...) of the scores *)
  if negb (PyList.truthy normalized_scores)
  then raise "ValueError: min() arg is an empty sequence"
  else ret top_results.

(** [rerank].  [ready] is [false] exactly when the first [try] returned
    from its handler. *)
Definition rerank (query : string) (recipes : list Recipe) (top_k : Z)
  : M X (list (Recipe * R)) :=
  self <- get_reranker ;;
  if negb (enabled self) then ret (dummy_scores recipes top_k)
  else if negb (PyList.truthy recipes) then ret []
  else
    ready <-
      (if negb (_model_loaded self)
       then try_except (_load_model ;;; ret true) (fun _ => ret false)
       else ret true) ;;
    if negb ready then ret (dummy_scores recipes top_k)
    else
      try_except (score_and_sort query recipes top_k)
                 (fun _ => ret (dummy_scores recipes top_k)).

(** [rerank_by_ingredients] *)
Definition rerank_by_ingredients (ingredients : list string)
    (recipes : list Recipe) (top_k : Z) : M X (list (Recipe * R)) :=
  let query := _prepare_query_text ingredients in
  rerank query recipes top_k.

(** [get_model_info]: the keys ["loaded"] and ["enabled"], with the name
    and the batch size. *)
Record ModelInfo := mkModelInfo {
  info_model_name : string;
  loaded : bool;
  info_enabled : bool;
  info_batch_size : Z
}.

Definition get_model_info : M X ModelInfo :=
  self <- get_reranker ;;
  ret (mkModelInfo (model_name self) (_model_loaded self) (enabled self)
         (batch_size self)).
End Methods.

End RerankerService.

(* ================================================================== *)
(** ** services/llm_service.py *)
(* ================================================================== *)

(** [user_preferences]: a dictionary from the name of a preference to its
    truth value; [d.get(k)] of a missing key is [None], which is false. *)
Definition Preferences := list (string * bool).

Fixpoint pref_get (d : Preferences) (k : string) : bool :=
  match d with
  | [] => false
  | (k', v) :: d' => if String.eqb k' k then v else pref_get d' k
  end.

Module LLMService.
Import LLMAttrs.

Definition nl : string := String (ascii_of_nat 10) EmptyString.

Definition system_prompt : string :=
  PyStr.join nl
    [ "You are a professional chef and culinary advisor. You recommend recipes based on the user's available ingredients and explain why these recipes were selected.";
      "";
      "Your task:";
      "1. Explain why the recommended recipes were chosen";
      "2. Specify which ingredients match";
      "3. If any ingredients are missing, mention them and suggest alternatives";
      "4. Pay attention to user preferences (vegan, gluten-free, etc.)";
      "5. Use a concise, clear, and friendly tone (English)";
      "";
      "Response format:";
      "- A brief explanation for each recipe (1-2 sentences)";
      "- A general summary (why these recipes were recommended)";
      "- Missing ingredients and alternatives (if any)";
      "" ].

(** The text added to [recipes_text] for the recipe numbered [i]. *)
Definition recipe_block (i : nat) (recipe : Recipe) : string :=
  let ingredients_text :=
    if PyStr.truthy (Cleaned_Ingredients recipe)
    then Cleaned_Ingredients recipe else Ingredients recipe in
  let ingredients_clean :=
    PyStr.remove_char "'"
      (PyStr.remove_char "]" (PyStr.remove_char "[" ingredients_text)) in
  let head :=
    (nl ++ PyStr.of_nat i ++ ". **" ++ Title recipe ++ "**" ++ nl
     ++ "   Ingredients: " ++ PyStr.take 200 ingredients_clean ++ "..." ++ nl)%string in
  match Instructions recipe with
  | Some instructions =>
      if PyStr.truthy instructions then
        let instructions_short :=
          if (150 <? String.length instructions)%nat
          then (PyStr.take 150 instructions ++ "...")%string
          else instructions in
        (head ++ "   Preparation: " ++ instructions_short ++ nl)%string
      else head
  | None => head
  end.

(** [enumerate(l, i)] folded into the text. *)
Fixpoint recipe_blocks (i : nat) (l : list Recipe) : string :=
  match l with
  | [] => EmptyString
  | recipe :: l' => (recipe_block i recipe ++ recipe_blocks (S i) l')%string
  end.

(** [_build_prompt] *)
Definition _build_prompt (user_ingredients : list string)
    (recommended_recipes : list Recipe)
    (user_preferences : option Preferences)
    (excluded_ingredients : option (list string)) : string :=
  let context_parts : list string :=
    [("**Available Ingredients:** " ++ PyStr.join ", " user_ingredients)%string] in
  let context_parts :=
    match user_preferences with
    | Some prefs =>
        if PyList.truthy prefs then
          let active_prefs : list string :=
            (if pref_get prefs "vegan" then ["Vegan"] else [])
            ++ (if pref_get prefs "vegetarian" && negb (pref_get prefs "vegan")
                then ["Vegetarian"] else [])
            ++ (if pref_get prefs "glutenFree" then ["Gluten-Free"] else [])
            ++ (if pref_get prefs "dairyFree" then ["Dairy-Free"] else [])
            ++ (if pref_get prefs "nutAllergy" then ["Nut Allergy"] else []) in
          if PyList.truthy active_prefs then
            context_parts ++
            [("**Dietary Preferences:** " ++ PyStr.join ", " active_prefs)%string]
          else context_parts
        else context_parts
    | None => context_parts
    end in
  let context_parts :=
    match excluded_ingredients with
    | Some excluded =>
        if PyList.truthy excluded then
          context_parts ++
          [("**Excluded Ingredients:** " ++ PyStr.join ", " excluded)%string]
        else context_parts
    | None => context_parts
    end in
  let recipes_text :=
    (nl ++ nl ++ "**Recommended Recipes:**" ++ nl
     ++ recipe_blocks 1 (PyList.slice_to recommended_recipes 10))%string in
  PyStr.join nl
    [ system_prompt;
      "";
      "---";
      "";
      "**User Information:**";
      PyStr.join nl context_parts;
      recipes_text;
      "";
      "---";
      "";
      "Please explain why these recipes were recommended. Use a concise, clear, and friendly tone. Respond in English." ].

Section Methods.
Context {X : Externals}.

(** [_load_model] *)
Definition _load_model : M X unit :=
  self <- get_llm ;;
  if negb (enabled self) then ret tt
  else if negb (truthy_opt (api_key self)) then
    set_llm (mk (api_key self) (model_name self) (max_tokens self)
               (temperature self) false (model self) (_model_loaded self))
  else if negb (_model_loaded self) then
    try_except
      (call EGenaiConfigure
         (genai_configure X
            (match api_key self with Some key => key | None => "" end)) ;;;
       m <- call EGenaiModel (genai_GenerativeModel X (model_name self)) ;;
       set_llm (mk (api_key self) (model_name self) (max_tokens self)
                  (temperature self) (enabled self) (Some m) true))
      (fun e =>
         self' <- get_llm ;;
         set_llm (mk (api_key self') (model_name self') (max_tokens self')
                    (temperature self') false (model self') false) ;;;
         raise e)
  else ret tt.

(** [is_available] *)
Definition is_available : M X bool :=
  self <- get_llm ;;
  ret (enabled self && _model_loaded self
       && match model self with Some _ => true | None => false end).

(** [generate_explanation] *)
Definition generate_explanation (user_ingredients : list string)
    (recommended_recipes : list Recipe)
    (user_preferences : option Preferences)
    (excluded_ingredients : option (list string)) : M X (option string) :=
  self <- get_llm ;;
  if negb (PyList.truthy recommended_recipes) then ret None
  else if negb (enabled self) then ret None
  else if negb (truthy_opt (api_key self)) then ret None
  else
    try_except
      ((if negb (_model_loaded self) then _load_model else ret tt) ;;;
       available <- is_available ;;
       if negb available then ret None
       else
         let prompt :=
           _build_prompt user_ingredients recommended_recipes
             user_preferences excluded_ingredients in
         self <- get_llm ;;
         text <-
           match model self with
           | Some m =>
               call EGenaiGenerate
                 (generate_content_text X m prompt (temperature self)
                    (max_tokens self))
           | None =>
               raise "AttributeError: 'NoneType' object has no attribute 'generate_content'"
           end ;;
         let explanation := PyStr.strip text in
         ret (Some explanation))
      (fun _ => ret None).
End Methods.

End LLMService.

(* ================================================================== *)
(** ** services/rag_pipeline.py *)
(* ================================================================== *)

Module RAGPipeline.

(** The loop of [_retrieve] over the identifiers given by the index:
    [if idx < len(all_recipes): retrieved_recipes.append(all_recipes[idx])]. *)
Fixpoint collect (all_recipes : list Recipe) (indices : list Z)
    (retrieved_recipes : list Recipe) : outcome (list Recipe) :=
  match indices with
  | [] => Ret retrieved_recipes
  | idx :: rest =>
      if (idx <? Z.of_nat (length all_recipes))%Z then
        match PyList.index all_recipes idx with
        | Some recipe => collect all_recipes rest (retrieved_recipes ++ [recipe])
        | None => Raise "IndexError: list index out of range"
        end
      else collect all_recipes rest retrieved_recipes
  end.

(** The inner loop of [process]: the user's ingredients found in the
    lowered ingredient text of the recipe.  [lower] is [str.lower]. *)
Fixpoint match_loop (lower : string -> string)
    (recipe_ingredients_lower : string)
    (user_ingredients : list string) (matching_ingredients : list string)
    : list string :=
  match user_ingredients with
  | [] => matching_ingredients
  | ingredient :: rest =>
      if PyStr.contains (lower ingredient) recipe_ingredients_lower
      then match_loop lower recipe_ingredients_lower rest
             (matching_ingredients ++ [ingredient])
      else match_loop lower recipe_ingredients_lower rest matching_ingredients
  end.

(** The outer loop of [process]: one [RecipeWithMatch] for each result of
    the reranker. *)
Fixpoint annotate_loop (lower : string -> string)
    (user_ingredients : list string)
    (reranked_results : list (Recipe * R))
    (final_recipes : list RecipeWithMatch) : list RecipeWithMatch :=
  match reranked_results with
  | [] => final_recipes
  | (recipe, score) :: rest =>
      let recipe_ingredients_lower := lower (Ingredients recipe) in
      let matching_ingredients :=
        match_loop lower recipe_ingredients_lower user_ingredients [] in
      annotate_loop lower user_ingredients rest
        (final_recipes ++
         [mkRecipeWithMatch recipe
            (Z.of_nat (length matching_ingredients)) matching_ingredients])
  end.

Section Methods.
Context {X : Externals}.

(** The string matching that [_retrieve] falls back to. *)
Definition string_matching (user_ingredients : list string) (top_k : Z)
  : M X (list Recipe) :=
  results <-
    call ELexicalSearch (find_suitable_recipes X user_ingredients false top_k) ;;
  ret (map to_recipe results).

(** [_retrieve] *)
Definition _retrieve (user_ingredients : list string) (top_k : Z)
  : M X (list Recipe) :=
  try_except
    (is_loaded <- call EIndexStatus (faiss_is_loaded X) ;;
     if negb is_loaded then string_matching user_ingredients top_k
     else
       total <- call ECorpusCount (get_total_count X) ;;
       found <-
         call EIndexSearch
           (faiss_search_by_ingredients X user_ingredients (Z.min top_k total)) ;;
       let indices := snd found in
       total' <- call ECorpusCount (get_total_count X) ;;
       all_recipes <- call ECorpusAll (get_all_recipes X total') ;;
       lift (collect all_recipes indices []))
    (fun _ => string_matching user_ingredients top_k).

(** [_rerank] *)
Definition _rerank (user_ingredients : list string)
    (recipes : list Recipe) (top_k : Z) : M X (list (Recipe * R)) :=
  try_except
    (if negb (PyList.truthy recipes) then ret []
     else
       RerankerService.rerank_by_ingredients user_ingredients recipes top_k)
    (fun _ =>
       ret (map (fun recipe => (recipe, 1%R)) (PyList.slice_to recipes top_k))).

(** [_generate] *)
Definition _generate (user_ingredients : list string)
    (reranked_recipes : list (Recipe * R))
    (user_preferences : option Preferences)
    (excluded_ingredients : option (list string)) : M X (option string) :=
  try_except
    (if negb (PyList.truthy reranked_recipes) then ret None
     else
       let recipes := map fst reranked_recipes in
       LLMService.generate_explanation user_ingredients recipes
         user_preferences excluded_ingredients)
    (fun _ => ret None).

(** [process] *)
Definition process (user_ingredients : list string)
    (user_preferences : option Preferences)
    (excluded_ingredients : option (list string))
    (top_k : Z) (explain : bool) (retrieval_top_k : Z)
  : M X PipelineResult :=
  retrieved_recipes <- _retrieve user_ingredients retrieval_top_k ;;
  if negb (PyList.truthy retrieved_recipes) then
    ret (mkPipelineResult [] None
           [ ("retrieval_count", MInt 0);
             ("reranked_count", MInt 0);
             ("pipeline_stages", MStages ["retrieval"]) ])
  else
    reranked_results <- _rerank user_ingredients retrieved_recipes top_k ;;
    let final_recipes :=
      annotate_loop (str_lower X) user_ingredients reranked_results [] in
    explanation <-
      (if explain
       then _generate user_ingredients reranked_results
              user_preferences excluded_ingredients
       else ret None) ;;
    retriever_used <- call EIndexStatus (faiss_is_loaded X) ;;
    reranker_used <- RerankerService.is_loaded ;;
    llm_used <- LLMService.is_available ;;
    ret (mkPipelineResult final_recipes explanation
           [ ("retrieval_count", MInt (Z.of_nat (length retrieved_recipes)));
             ("reranked_count", MInt (Z.of_nat (length reranked_results)));
             ("pipeline_stages",
              MStages (["retrieval"; "reranking"]
                       ++ (if explain then ["generation"] else [])));
             ("retriever_used", MBool retriever_used);
             ("reranker_used", MBool reranker_used);
             ("llm_used", MBool llm_used) ]).
End Methods.

End RAGPipeline.

(* ================================================================== *)
(** ** Concrete collaborators, for the examples *)
(* ================================================================== *)

Module Demo.

Definition omelette : Recipe :=
  mkRecipe "Omelette" "['2 Eggs', '1 tbsp butter']" (Some "Beat the eggs. Fry.")
    "omelette.jpg" "['eggs', 'butter']".

Definition pancakes : Recipe :=
  mkRecipe "Pancakes" "['1 cup Flour', '1 egg', 'milk']" (Some "Mix and fry.")
    "pancakes.jpg" "['flour', 'egg', 'milk']".

Definition toast : Recipe :=
  mkRecipe "Toast" "['bread']" None "toast.jpg" "".

Definition corpus : list Recipe := [omelette; pancakes; toast].

(** Collaborators without a state of their own: the index is loaded or
    not and answers [indices]; the string matching answers [lexical]; the
    cross-encoder loads or not and scores each pair by [scores]; the Gemini
    client answers [text]; the texts are ASCII, for which [str.lower] is
    [PyStr.lower]. *)
Definition externals (index_loaded : bool) (indices : list Z)
    (lexical : outcome (list RecipeWithMatch))
    (encoder : outcome unit)
    (scores : outcome (string * string -> R))
    (text : outcome string) : Externals :=
  {| World := unit;
     CrossEncoder := unit;
     GenerativeModel := unit;
     faiss_is_loaded := fun w => (Ret index_loaded, w);
     faiss_search_by_ingredients := fun _ _ w => (Ret ([], indices), w);
     get_total_count := fun w => (Ret (Z.of_nat (length corpus)), w);
     get_all_recipes := fun limit w => (Ret (PyList.slice_to corpus limit), w);
     find_suitable_recipes := fun _ _ _ w => (lexical, w);
     CrossEncoder_init := fun _ w => (encoder, w);
     CrossEncoder_predict :=
       fun _ pairs _ w =>
         (match scores with
          | Ret score => Ret (map score pairs)
          | Raise e => Raise e
          end, w);
     genai_configure := fun _ w => (Ret tt, w);
     genai_GenerativeModel := fun _ w => (Ret tt, w);
     generate_content_text := fun _ _ _ _ w => (text, w);
     str_lower := PyStr.lower;
     predict_shape :=
       ltac:(intros m pairs batch w l w' H; destruct scores;
             inversion H; apply length_map);
     str_lower_empty := eq_refl |}.

(** The state at start-up, from [config.py]: both services enabled, no
    model loaded yet. *)
Definition initial {X : Externals} (w : World X) (key : option string)
    (reranker_enabled : bool) : State X :=
  mkState w
    (RerankerAttrs.mk None "cross-encoder/ms-marco-MiniLM-L-6-v2" 32
       reranker_enabled false)
    (LLMAttrs.mk key "models/gemini-2.5-flash" 2000 (7 / 10)%R true None false)
    [].

(** A cross-encoder that scores a pair by the length of the text of the
    recipe, and one that always raises. *)
Definition by_length : outcome (string * string -> R) :=
  Ret (fun p => INR (String.length (snd p))).

Definition no_scores : outcome (string * string -> R) :=
  Raise "RuntimeError: CUDA out of memory".

(** Everything works: the index answers the identifiers 1 and 0. *)
Definition healthy : Externals :=
  externals true [1; 0]%Z (Ret []) (Ret tt) by_length (Ret " Enjoy! ").

(** The cross-encoder cannot be built. *)
Definition no_encoder : Externals :=
  externals true [1; 0]%Z (Ret []) (Raise "OSError: model not found")
    by_length (Ret " Enjoy! ").


(** The index is not loaded and the string matching finds nothing. *)
Definition nothing_found : Externals :=
  externals false [] (Ret []) (Ret tt) by_length (Ret " Enjoy! ").

(** The index answers the identifier -1. *)
Definition padded_index : Externals :=
  externals true [-1]%Z (Ret []) (Ret tt) by_length (Ret " Enjoy! ").

(** The Gemini client raises on every generation. *)
Definition no_generation : Externals :=
  externals true [1; 0]%Z (Ret []) (Ret tt) by_length
    (Raise "ResourceExhausted: 429").

(** The states at start-up: with the settings of [config.py] and an API
    key, and the same with the reranker switched off. *)
Definition start (X : Externals) (w : World X) : State X :=
  initial w (Some "key") true.

Definition start_without_reranker (X : Externals) (w : World X) : State X :=
  initial w (Some "key") false.

(** The answer of a computation that returned ([d] otherwise). *)
Definition answer {X : Externals} {A : Type} (d : A)
    (run : outcome A * State X) : A :=
  match fst run with
  | Ret a => a
  | Raise _ => d
  end.

End Demo.

(* ================================================================== *)
(** ** The notions used in the statements *)
(* ================================================================== *)



(** The nominal answer of [rerank]: the candidates paired with the sigmoid
    of their scores, sorted by descending score and cut to [top_k]. *)
Definition ranked (recipes : list Recipe) (scores : list R) (top_k : Z)
  : list (Recipe * R) :=
  PyList.slice_to (sort_desc (combine recipes (map sigmoid scores))) top_k.

Section RerankerNotions.
Context (X : Externals).
Import RerankerAttrs.

(** The interface of the cross-encoder: one score for each pair. *)
Definition one_score_per_pair : Prop :=
  forall m pairs batch w scores w',
    CrossEncoder_predict X m pairs batch w = (Ret scores, w') ->
    length scores = length pairs.

Definition reranker_disabled (s : State X) : Prop :=
  enabled (reranker_service s) = false.

(** The model is not loaded yet and building it raises. *)
Definition reranker_load_fails (s : State X) : Prop :=
  _model_loaded (reranker_service s) = false /\
  exists e w,
    CrossEncoder_init X (model_name (reranker_service s)) (world s)
    = (Raise e, w).

(** Scoring fails: [predict] raises on the pairs of this call (or there is
    no model to call), in the world in which it is called: the current one
    when the model is loaded, the one left by the constructor otherwise. *)
Definition reranker_scoring_fails (query : string) (recipes : list Recipe)
    (s : State X) : Prop :=
  let self := reranker_service s in
  let pairs :=
    map (fun recipe => (query, RerankerService._prepare_recipe_text recipe))
      recipes in
  if _model_loaded self then
    match model self with
    | Some m =>
        exists e w,
          CrossEncoder_predict X m pairs (batch_size self) (world s)
          = (Raise e, w)
    | None => True
    end
  else
    exists m w1 e w2,
      CrossEncoder_init X (model_name self) (world s) = (Ret m, w1) /\
      CrossEncoder_predict X m pairs (batch_size self) w1 = (Raise e, w2).

(** A run of calls of [rerank], one after the other. *)
Fixpoint rerank_calls (calls : list (string * list Recipe * Z))
  : M X (list (list (Recipe * R))) :=
  match calls with
  | [] => ret []
  | (query, recipes, top_k) :: rest =>
      r <- RerankerService.rerank query recipes top_k ;;
      rs <- rerank_calls rest ;;
      ret (r :: rs)
  end.
End RerankerNotions.

Section GeneratorNotions.
Context (X : Externals).
Import LLMAttrs.

(** The key handed to [genai.configure]. *)
Definition configured_key (self : LLMAttrs.t X) : string :=
  match api_key self with Some key => key | None => "" end.

(** The model is not loaded yet and building the client raises, in
    [configure] or in [GenerativeModel]. *)
Definition llm_load_fails (s : State X) : Prop :=
  let self := llm_service s in
  _model_loaded self = false /\
  ((exists e w,
       genai_configure X (configured_key self) (world s) = (Raise e, w)) \/
   (exists w1 e w2,
       genai_configure X (configured_key self) (world s) = (Ret tt, w1) /\
       genai_GenerativeModel X (model_name self) w1 = (Raise e, w2))).

(** Generation raises on the prompt of this call, in the world in which
    it is called: the current one when the model is loaded, the one left by
    the construction of the client otherwise. *)
Definition llm_generation_fails (user_ingredients : list string)
    (recommended_recipes : list Recipe)
    (user_preferences : option Preferences)
    (excluded_ingredients : option (list string)) (s : State X) : Prop :=
  let self := llm_service s in
  let prompt :=
    LLMService._build_prompt user_ingredients recommended_recipes
      user_preferences excluded_ingredients in
  if _model_loaded self then
    exists m e w,
      model self = Some m /\
      generate_content_text X m prompt (temperature self) (max_tokens self)
        (world s) = (Raise e, w)
  else
    exists w1 m w2 e w3,
      genai_configure X (configured_key self) (world s) = (Ret tt, w1) /\
      genai_GenerativeModel X (model_name self) w1 = (Ret m, w2) /\
      generate_content_text X m prompt (temperature self) (max_tokens self)
        w2 = (Raise e, w3).
End GeneratorNotions.

Section PipelineNotions.
Context (X : Externals).

(** The calls that belong to the retrieval stage. *)
Definition is_retrieval_event (ev : Event) : bool :=
  match ev with
  | EIndexStatus | EIndexSearch | ECorpusCount | ECorpusAll
  | ELexicalSearch => true
  | _ => false
  end.



(** A computation that stays within the retrieval stage: it leaves both
    services as they are and only makes calls of that stage. *)
Definition retrieval_only {A} (m : M X A) : Prop :=
  forall s o s',
    m s = (o, s') ->
    reranker_service s' = reranker_service s /\
    llm_service s' = llm_service s /\
    exists evs,
      trace s' = evs ++ trace s /\
      forallb is_retrieval_event evs = true.
End PipelineNotions.

(** The answer of [process] when nothing was retrieved. *)
Definition empty_result : PipelineResult :=
  mkPipelineResult [] None
    [ ("retrieval_count", MInt 0);
      ("reranked_count", MInt 0);
      ("pipeline_stages", MStages ["retrieval"]) ].

(** [sub] occurs in [text] when case is ignored: the lowered [sub] is a
    piece of the lowered [text].  [lower] is [str.lower]. *)
Definition ci_substring (lower : string -> string) (sub text : string) : Prop :=
  exists pre post,
    lower text = (pre ++ lower sub ++ post)%string.

(** The user's ingredients that occur in the ingredient text of a recipe,
    in the order and with the repetitions of the user's list. *)
Definition matches (lower : string -> string)
    (user_ingredients : list string) (recipe : Recipe) : list string :=
  filter
    (fun ingredient =>
       PyStr.contains (lower ingredient) (lower (Ingredients recipe)))
    user_ingredients.

(** The record built for one result of the reranker. *)
Definition annotated (lower : string -> string)
    (user_ingredients : list string) (p : Recipe * R) : RecipeWithMatch :=
  mkRecipeWithMatch (fst p)
    (Z.of_nat (length (matches lower user_ingredients (fst p))))
    (matches lower user_ingredients (fst p)).








Section StageNotions.
Context (X : Externals).




End StageNotions.

(* ================================================================== *)
(** ** Further notions, for the properties beyond the specification *)
(* ================================================================== *)

Definition Reqb (x y : R) : bool := if Req_dec_T x y then true else false.

(** The entries of a scored list whose score is [x], in their order. *)
Definition with_score {A : Type} (x : R) (l : list (A * R)) : list (A * R) :=
  filter (fun p => Reqb (snd p) x) l.



(** The five preferences that [_build_prompt] reads. *)
Definition preference_keys : list string :=
  ["vegan"; "vegetarian"; "glutenFree"; "dairyFree"; "nutAllergy"].

(** The calls that build or use the cross-encoder, and those that build or
    use the Gemini client. *)
Definition is_reranker_event (ev : Event) : bool :=
  match ev with
  | ERerankerLoad | ERerankerPredict => true
  | _ => false
  end.

Definition is_generator_event (ev : Event) : bool :=
  match ev with
  | EGenaiConfigure | EGenaiModel | EGenaiGenerate => true
  | _ => false
  end.

(** The number of times the cross-encoder was built, in a list of calls. *)
Definition loads (evs : list Event) : nat :=
  length (filter (fun ev => match ev with ERerankerLoad => true | _ => false end) evs).

(** More concrete collaborators and states. *)
Module Cases.

(** As [Demo.healthy], with a Gemini client that cannot be built. *)
Definition no_client : Externals :=
  {| World := unit;
     CrossEncoder := unit;
     GenerativeModel := unit;
     faiss_is_loaded := fun w => (Ret true, w);
     faiss_search_by_ingredients := fun _ _ w => (Ret ([], [1; 0]%Z), w);
     get_total_count := fun w => (Ret (Z.of_nat (length Demo.corpus)), w);
     get_all_recipes := fun limit w => (Ret (PyList.slice_to Demo.corpus limit), w);
     find_suitable_recipes := fun _ _ _ w => (Ret [], w);
     CrossEncoder_init := fun _ w => (Ret tt, w);
     CrossEncoder_predict :=
       fun _ pairs _ w => (Ret (map (fun _ => 0%R) pairs), w);
     genai_configure := fun _ w => (Ret tt, w);
     genai_GenerativeModel :=
       fun _ w => (Raise "PermissionDenied: API key not valid", w);
     generate_content_text := fun _ _ _ _ w => (Ret " Enjoy! ", w);
     str_lower := PyStr.lower;
     predict_shape :=
       ltac:(intros m pairs batch w l w' H; inversion H; apply length_map);
     str_lower_empty := eq_refl |}.

(** As [Demo.healthy], with a cross-encoder whose [predict] raises. *)
Definition no_scoring : Externals :=
  Demo.externals true [1; 0]%Z (Ret []) (Ret tt) Demo.no_scores
    (Ret " Enjoy! ").

(** An index that is not loaded and a string matching that raises on its
    first call and finds the omelette afterwards; the world counts the calls
    of the string matching. *)
Definition flaky_corpus : Externals :=
  {| World := nat;
     CrossEncoder := unit;
     GenerativeModel := unit;
     faiss_is_loaded := fun w => (Ret false, w);
     faiss_search_by_ingredients := fun _ _ w => (Ret ([], []), w);
     get_total_count := fun w => (Ret (Z.of_nat (length Demo.corpus)), w);
     get_all_recipes := fun limit w => (Ret (PyList.slice_to Demo.corpus limit), w);
     find_suitable_recipes :=
       fun _ _ _ w =>
         (match w with
          | O => Raise "RuntimeError: recipes not loaded"
          | S _ => Ret [mkRecipeWithMatch Demo.omelette 1 ["egg"]]
          end, S w);
     CrossEncoder_init := fun _ w => (Ret tt, w);
     CrossEncoder_predict :=
       fun _ pairs _ w => (Ret (map (fun _ => 0%R) pairs), w);
     genai_configure := fun _ w => (Ret tt, w);
     genai_GenerativeModel := fun _ w => (Ret tt, w);
     generate_content_text := fun _ _ _ _ w => (Ret " Enjoy! ", w);
     str_lower := PyStr.lower;
     predict_shape :=
       ltac:(intros m pairs batch w l w' H; inversion H; apply length_map);
     str_lower_empty := eq_refl |}.

(** Two requests on [Demo.healthy] with the reranker switched off: one
    without explanation, one with an empty string among the ingredients. *)
Definition plain_request : outcome PipelineResult * State Demo.healthy :=
  RAGPipeline.process (X:=Demo.healthy) ["egg"; "flour"] None None 1 false 50
    (Demo.start_without_reranker Demo.healthy tt).

Definition blank_request : outcome PipelineResult * State Demo.healthy :=
  RAGPipeline.process (X:=Demo.healthy) [""; "egg"] None None 10 true 50
    (Demo.start_without_reranker Demo.healthy tt).

(** Everything that can fail does: the index says it is loaded and the
    vector search raises, the cross-encoder cannot be built, the generation
    raises; the string matching finds the omelette and the pancakes. *)
Definition degraded : Externals :=
  {| World := unit;
     CrossEncoder := unit;
     GenerativeModel := unit;
     faiss_is_loaded := fun w => (Ret true, w);
     faiss_search_by_ingredients :=
       fun _ _ w => (Raise "RuntimeError: index is corrupted", w);
     get_total_count := fun w => (Ret (Z.of_nat (length Demo.corpus)), w);
     get_all_recipes := fun limit w => (Ret (PyList.slice_to Demo.corpus limit), w);
     find_suitable_recipes :=
       fun _ _ _ w =>
         (Ret [mkRecipeWithMatch Demo.omelette 1 ["egg"];
               mkRecipeWithMatch Demo.pancakes 2 ["egg"; "flour"]], w);
     CrossEncoder_init := fun _ w => (Raise "OSError: model not found", w);
     CrossEncoder_predict :=
       fun _ pairs _ w => (Ret (map (fun _ => 0%R) pairs), w);
     genai_configure := fun _ w => (Ret tt, w);
     genai_GenerativeModel := fun _ w => (Ret tt, w);
     generate_content_text :=
       fun _ _ _ _ w => (Raise "ResourceExhausted: 429", w);
     str_lower := PyStr.lower;
     predict_shape :=
       ltac:(intros m pairs batch w l w' H; inversion H; apply length_map);
     str_lower_empty := eq_refl |}.

(** The state after both models were loaded. *)
Definition warm (X : Externals) (w : World X) (encoder : CrossEncoder X)
    (client : GenerativeModel X) : State X :=
  mkState w
    (RerankerAttrs.mk (Some encoder) "cross-encoder/ms-marco-MiniLM-L-6-v2" 32
       true true)
    (LLMAttrs.mk (Some "key") "models/gemini-2.5-flash" 2000 (7 / 10)%R true
       (Some client) true)
    [].

End Cases.

(** The attributes of the reranker agree: a model that is marked as loaded
    is there and the service is enabled. *)
Definition reranker_consistent {X : Externals} (s : State X) : Prop :=
  RerankerAttrs._model_loaded (reranker_service s) = true ->
  RerankerAttrs.enabled (reranker_service s) = true /\
  RerankerAttrs.model (reranker_service s) <> None.

(* ================================================================== *)
(** ** Reasoning about the monad *)
(* ================================================================== *)

Section MonadLemmas.
Context {X : Externals}.

Lemma bind_ret_inv {A B} (m : M X A) (k : A -> M X B) s b s' :
  bind m k s = (Ret b, s') ->
  exists a s1, m s = (Ret a, s1) /\ k a s1 = (Ret b, s').
Proof.
  unfold bind. destruct (m s) as [[a|e] s1]; intros H.
  - exists a, s1. split; [reflexivity | exact H].
  - discriminate H.
Qed.

Lemma bind_ret_intro {A B} (m : M X A) (k : A -> M X B) s a s1 :
  m s = (Ret a, s1) -> bind m k s = k a s1.
Proof. unfold bind. intros ->. reflexivity. Qed.

Lemma bind_raise_intro {A B} (m : M X A) (k : A -> M X B) s e s1 :
  m s = (Raise e, s1) -> bind m k s = (Raise e, s1).
Proof. unfold bind. intros ->. reflexivity. Qed.

End MonadLemmas.

(* ================================================================== *)
(** ** Slices, the sort and the sigmoid *)
(* ================================================================== *)

Section ListLemmas.
Context {A : Type}.

Lemma firstn_In (n : nat) (l : list A) (x : A) :
  In x (firstn n l) -> In x l.
Proof.
  intros H. rewrite <- (firstn_skipn n l). apply in_or_app. left. exact H.
Qed.

(** For [k >= 0], [l[:k]] is the first [k] elements. *)
Lemma slice_to_nonneg (l : list A) (k : Z) :
  (0 <= k)%Z -> PyList.slice_to l k = firstn (Z.to_nat k) l.
Proof.
  intros Hk. unfold PyList.slice_to.
  destruct (Z.leb_spec 0 k); [reflexivity | lia].
Qed.

Lemma slice_to_length (l : list A) (k : Z) :
  (0 <= k)%Z ->
  Z.of_nat (length (PyList.slice_to l k)) = Z.min k (Z.of_nat (length l)).
Proof.
  intros Hk. rewrite slice_to_nonneg by assumption.
  rewrite length_firstn. lia.
Qed.



End ListLemmas.

Section SortLemmas.
Context {A : Type}.


Lemma Rleb_false (x y : R) : Rleb x y = false -> (y < x)%R.
Proof. unfold Rleb. destruct (Rle_dec x y); [discriminate | lra]. Qed.

Lemma insert_desc_perm (p : A * R) (l : list (A * R)) :
  Permutation (p :: l) (insert_desc p l).
Proof.
  induction l as [|q l IH]; simpl.
  - apply Permutation_refl.
  - destruct (Rleb (snd q) (snd p)).
    + apply Permutation_refl.
    + eapply Permutation_trans; [apply perm_swap|].
      apply perm_skip. exact IH.
Qed.

Lemma sort_desc_perm (l : list (A * R)) : Permutation l (sort_desc l).
Proof.
  induction l as [|p l IH]; simpl.
  - apply Permutation_refl.
  - eapply Permutation_trans; [|apply insert_desc_perm].
    apply perm_skip. exact IH.
Qed.

Lemma sort_desc_length (l : list (A * R)) :
  length (sort_desc l) = length l.
Proof. symmetry. apply Permutation_length, sort_desc_perm. Qed.



End SortLemmas.


(* ================================================================== *)
(** ** The reranker *)
(* ================================================================== *)

Section RerankerLemmas.
Context {X : Externals}.
Import RerankerAttrs RerankerService.








(** What [score_and_sort] does, by the answer of [predict]. *)
Lemma score_and_sort_cases query recipes top_k (s : State X) :
  (exists e s', score_and_sort query recipes top_k s = (Raise e, s')) \/
  (exists m scores w,
      model (reranker_service s) = Some m /\
      CrossEncoder_predict X m
        (map (fun recipe => (query, _prepare_recipe_text recipe)) recipes)
        (batch_size (reranker_service s)) (world s) = (Ret scores, w) /\
      score_and_sort query recipes top_k s
      = (Ret (ranked recipes scores top_k),
         mkState w (reranker_service s) (llm_service s)
           (ERerankerPredict :: trace s))).
Proof.
  unfold score_and_sort, bind, get_reranker, call, raise, ret. simpl.
  destruct (model (reranker_service s)) as [m|] eqn:Em.
  - destruct (CrossEncoder_predict X m _ _ (world s)) as [[scores|e] w] eqn:Ep.
    + destruct scores as [|x scores]; simpl.
      * left. eauto.
      * right. exists m, (x :: scores), w.
        split; [reflexivity | split; [exact Ep | reflexivity]].
    + left. eauto.
  - left. eauto.
Qed.
End RerankerLemmas.

Section RerankTheorems.
Context {X : Externals}.
Import RerankerAttrs RerankerService.

Lemma dummy_scores_nil (top_k : Z) : dummy_scores [] top_k = [].
Proof.
  unfold dummy_scores, PyList.slice_to.
  destruct (0 <=? top_k)%Z; rewrite firstn_nil; reflexivity.
Qed.

(** [rerank] always returns; its answer is the fallback list or the
    nominal one, and it is the fallback list in each degraded mode. *)
Lemma rerank_cases query recipes top_k (s : State X) :
  exists res s',
    rerank query recipes top_k s = (Ret res, s') /\
    (res = dummy_scores recipes top_k \/
     exists m scores w0 w1,
       CrossEncoder_predict X m
         (map (fun recipe => (query, _prepare_recipe_text recipe)) recipes)
         (batch_size (reranker_service s)) w0 = (Ret scores, w1) /\
       res = ranked recipes scores top_k) /\
    (reranker_disabled X s \/ reranker_load_fails X s
     \/ reranker_scoring_fails X query recipes s ->
     res = dummy_scores recipes top_k).
Proof.
  destruct s as [w [mo nm bs en ld] llm tr].
  unfold reranker_disabled, reranker_load_fails, reranker_scoring_fails.
  unfold rerank, bind, get_reranker, ret. simpl.
  destruct en; simpl.
  2:{ eexists _, _. split; [reflexivity|]. split; [left; reflexivity|].
      intros _. reflexivity. }
  destruct recipes as [|r0 recipes]; simpl.
  { eexists _, _. split; [reflexivity|]. rewrite dummy_scores_nil.
    split; [left; reflexivity|]. intros _. reflexivity. }
  destruct ld; simpl.
  - (* the model is loaded *)
    unfold try_except.
    destruct (score_and_sort_cases query (r0 :: recipes) top_k
                (mkState w (mk mo nm bs true true) llm tr))
      as [[e [s' He]] | [m [scores [w' [Hm [Hp Hs]]]]]].
    + rewrite He. eexists _, _. split; [reflexivity|].
      split; [left; reflexivity|]. intros _. reflexivity.
    + rewrite Hs. simpl in Hm, Hp. eexists _, _. split; [reflexivity|].
      split.
      * right. exists m, scores, w, w'. split; [exact Hp | reflexivity].
      * intros [Hd | [[Hl _] | Hf]]; try discriminate.
        subst mo. destruct Hf as [e [w2 Hf]]. simpl in Hp.
        rewrite Hf in Hp. discriminate.
  - (* the model is loaded now *)
    unfold try_except, _load_model, bind, get_reranker, call, set_reranker,
      raise, ret, try_except. simpl.
    destruct (CrossEncoder_init X nm w) as [[m|e] w1] eqn:Ei; simpl.
    + destruct (score_and_sort_cases query (r0 :: recipes) top_k
                  (mkState w1 (mk (Some m) nm bs true true) llm
                     (ERerankerLoad :: tr)))
        as [[e [s' He]] | [m' [scores [w' [Hm [Hp Hs]]]]]].
      * rewrite He. eexists _, _. split; [reflexivity|].
        split; [left; reflexivity|]. intros _. reflexivity.
      * rewrite Hs. simpl in Hm, Hp. eexists _, _. split; [reflexivity|].
        split.
        -- right. exists m', scores, w1, w'. split; [exact Hp | reflexivity].
        -- intros [Hd | [[_ [e [w2 Hl]]] | Hf]]; try discriminate.
           destruct Hf as [m2 [w2 [e [w3 [Hi Hf]]]]].
           injection Hm as <-. injection Hi as <- <-.
           rewrite Hf in Hp. discriminate.
    + eexists _, _. split; [reflexivity|].
      split; [left; reflexivity|]. intros _. reflexivity.
Qed.
End RerankTheorems.

Section RerankContract.
Context {X : Externals}.
Import RerankerAttrs RerankerService.







(** Once the service is switched off, [rerank] answers with the fallback
    list and touches nothing: no collaborator is called. *)
Lemma rerank_disabled query recipes top_k (s : State X) :
  enabled (reranker_service s) = false ->
  rerank query recipes top_k s = (Ret (dummy_scores recipes top_k), s).
Proof.
  intros He. unfold rerank, bind, get_reranker, ret. rewrite He. reflexivity.
Qed.

Lemma rerank_calls_disabled calls (s : State X) :
  enabled (reranker_service s) = false ->
  rerank_calls X calls s
  = (Ret (map (fun c => dummy_scores (snd (fst c)) (snd c)) calls), s).
Proof.
  intros He. induction calls as [|[[query recipes] top_k] calls IH].
  - reflexivity.
  - cbn [rerank_calls]. unfold bind at 1.
    rewrite (rerank_disabled query recipes top_k s He).
    unfold bind at 1. rewrite IH. reflexivity.
Qed.

(** C8.  When the model cannot be loaded on the first use, the call takes
    the fallback path and leaves the service switched off; from then on
    every run of calls of [rerank], in whatever state of the world, gives
    fallback lists and calls no collaborator (the load is not attempted
    again); [get_model_info] reports enabled false, loaded false after the
    failure and enabled true, loaded false before the first use. *)
Theorem load_failure_is_permanent (query : string) (recipes : list Recipe)
    (top_k : Z) (s : State X) (e : exn) (w : World X) :
  enabled (reranker_service s) = true ->
  _model_loaded (reranker_service s) = false ->
  recipes <> [] ->
  CrossEncoder_init X (model_name (reranker_service s)) (world s)
  = (Raise e, w) ->
  exists s1,
    rerank query recipes top_k s = (Ret (dummy_scores recipes top_k), s1) /\
    trace s1 = ERerankerLoad :: trace s /\
    (exists info, get_model_info s = (Ret info, s) /\
                  info_enabled info = true /\ loaded info = false) /\
    (exists info, get_model_info s1 = (Ret info, s1) /\
                  info_enabled info = false /\ loaded info = false) /\
    forall calls s2,
      reranker_service s2 = reranker_service s1 ->
      rerank_calls X calls s2
      = (Ret (map (fun c => dummy_scores (snd (fst c)) (snd c)) calls), s2).
Proof.
  intros He Hl Hr Hi.
  destruct s as [w0 [mo nm bs en ld] llm tr]. simpl in *. subst en ld.
  destruct recipes as [|r0 recipes]; [congruence|].
  exists (mkState w (mk mo nm bs false false) llm (ERerankerLoad :: tr)).
  split.
  { unfold rerank, bind, get_reranker, ret, try_except, _load_model, bind,
      get_reranker, call, set_reranker, raise, ret, try_except. simpl.
    rewrite Hi. reflexivity. }
  split; [reflexivity|].
  split; [eexists; split; [reflexivity | split; reflexivity]|].
  split; [eexists; split; [reflexivity | split; reflexivity]|].
  intros calls s2 Hs2. apply rerank_calls_disabled. rewrite Hs2. reflexivity.
Qed.
End RerankContract.

(* ================================================================== *)
(** ** The generator *)
(* ================================================================== *)

Section GeneratorTheorems.
Context {X : Externals}.
Import LLMAttrs LLMService.

Ltac run_llm :=
  unfold generate_explanation, _load_model, is_available, bind, get_llm,
    set_llm, call, raise, ret, try_except; simpl.

(** [generate_explanation] returns in every state, and returns [None] in
    each of the listed cases. *)
Lemma generate_explanation_cases user_ingredients recommended_recipes
    user_preferences excluded_ingredients (s : State X) :
  exists o s',
    generate_explanation user_ingredients recommended_recipes
      user_preferences excluded_ingredients s = (Ret o, s') /\
    (recommended_recipes = [] -> o = None /\ s' = s) /\
    (enabled (llm_service s) = false
     \/ truthy_opt (api_key (llm_service s)) = false
     \/ llm_load_fails X s
     \/ llm_generation_fails X user_ingredients recommended_recipes
          user_preferences excluded_ingredients s ->
     o = None).
Proof.
  destruct s as [w rr [key nm mt temp en mo ld] tr].
  unfold llm_load_fails, llm_generation_fails, configured_key.
  destruct recommended_recipes as [|r0 rs].
  { run_llm. eexists _, _. split; [reflexivity|].
    split; [intros _; split; reflexivity | intros _; reflexivity]. }
  destruct en.
  2:{ run_llm. eexists _, _. split; [reflexivity|].
      split; [discriminate | intros _; reflexivity]. }
  destruct (truthy_opt key) eqn:Ek.
  2:{ run_llm. repeat (rewrite Ek; simpl). eexists _, _. split; [reflexivity|].
      split; [discriminate | intros _; reflexivity]. }
  destruct ld.
  - (* the model is loaded *)
    run_llm. repeat (rewrite Ek; simpl).
    destruct mo as [m|]; simpl.
    + destruct (generate_content_text X m _ temp mt w) as [[text|e] w'] eqn:Eg.
      * eexists _, _. split; [reflexivity|].
        split; [discriminate|].
        intros [Hd | [Hd | [[Hd _] | Hf]]]; try discriminate.
        destruct Hf as [m' [e [w2 [Hm Hf]]]]. injection Hm as <-.
        simpl in Hf. rewrite Hf in Eg. discriminate.
      * eexists _, _. split; [reflexivity|].
        split; [discriminate | intros _; reflexivity].
    + eexists _, _. split; [reflexivity|].
      split; [discriminate | intros _; reflexivity].
  - (* the model is loaded now *)
    run_llm. repeat (rewrite Ek; simpl).
    destruct (genai_configure X _ w) as [[[]|e] w1] eqn:Ec; simpl.
    2:{ eexists _, _. split; [reflexivity|].
        split; [discriminate | intros _; reflexivity]. }
    destruct (genai_GenerativeModel X nm w1) as [[m|e] w2] eqn:Em; simpl.
    2:{ eexists _, _. split; [reflexivity|].
        split; [discriminate | intros _; reflexivity]. }
    destruct (generate_content_text X m _ temp mt w2) as [[text|e] w3] eqn:Eg.
    + eexists _, _. split; [reflexivity|].
      split; [discriminate|].
      intros [Hd | [Hd | [[_ Hl] | Hf]]]; try discriminate.
      * simpl in Hl. destruct Hl as [[e [w' Hl]] | [w' [e [w'' [Hl1 Hl2]]]]].
        -- congruence.
        -- assert (w' = w1) by congruence. subst w'. congruence.
      * simpl in Hf. destruct Hf as [w' [m' [w'' [e [w''' [H1 [H2 H3]]]]]]].
        assert (w' = w1) by congruence. subst w'.
        assert (m' = m /\ w'' = w2) as [-> ->]
          by (split; congruence).
        congruence.
    + eexists _, _. split; [reflexivity|].
      split; [discriminate | intros _; reflexivity].
Qed.

(** The wrapper of the pipeline adds nothing: its handler is never
    reached and the empty list is answered alike. *)
Lemma _generate_eq user_ingredients reranked_recipes user_preferences
    excluded_ingredients (s : State X) :
  RAGPipeline._generate user_ingredients reranked_recipes user_preferences
    excluded_ingredients s
  = generate_explanation user_ingredients (map fst reranked_recipes)
      user_preferences excluded_ingredients s.
Proof.
  unfold RAGPipeline._generate, try_except.
  destruct reranked_recipes as [|p l]; simpl.
  - unfold generate_explanation, bind, get_llm, ret. reflexivity.
  - destruct (generate_explanation_cases user_ingredients
                (fst p :: map fst l) user_preferences excluded_ingredients s)
      as [o [s' [H _]]].
    rewrite H. reflexivity.
Qed.

(** C7.  [generate_explanation] never raises.  It returns [None], and
    calls nothing, when the list of recipes is empty, whatever the state of
    the service; it returns [None] when the service is disabled, when there
    is no API key, when the client cannot be built and when generation
    raises.  The pipeline takes the answer as it is: [_generate] is the same
    computation, so it does not raise either. *)
Theorem generate_explanation_none (user_ingredients : list string)
    (recommended_recipes : list Recipe)
    (user_preferences : option Preferences)
    (excluded_ingredients : option (list string)) (s : State X) :
  (exists o s',
      generate_explanation user_ingredients recommended_recipes
        user_preferences excluded_ingredients s = (Ret o, s')) /\
  (recommended_recipes = [] ->
   generate_explanation user_ingredients recommended_recipes
     user_preferences excluded_ingredients s = (Ret None, s)) /\
  (enabled (llm_service s) = false
   \/ truthy_opt (api_key (llm_service s)) = false
   \/ llm_load_fails X s
   \/ llm_generation_fails X user_ingredients recommended_recipes
        user_preferences excluded_ingredients s ->
   exists s',
     generate_explanation user_ingredients recommended_recipes
       user_preferences excluded_ingredients s = (Ret None, s')) /\
  (forall reranked_recipes,
      map fst reranked_recipes = recommended_recipes ->
      RAGPipeline._generate user_ingredients reranked_recipes
        user_preferences excluded_ingredients s
      = generate_explanation user_ingredients recommended_recipes
          user_preferences excluded_ingredients s).
Proof.
  destruct (generate_explanation_cases user_ingredients recommended_recipes
              user_preferences excluded_ingredients s)
    as [o [s' [H [Hnil Hdeg]]]].
  split; [exists o, s'; exact H|].
  split.
  { intros Hr. destruct (Hnil Hr) as [-> ->]. exact H. }
  split.
  { intros Hd. exists s'. rewrite H, (Hdeg Hd). reflexivity. }
  intros reranked <-. apply _generate_eq.
Qed.
End GeneratorTheorems.

(* ================================================================== *)
(** ** The pipeline: retrieval *)
(* ================================================================== *)

Section RetrievalLemmas.
Context {X : Externals}.

Lemma retrieval_only_ret {A} (a : A) : retrieval_only X (ret a).
Proof.
  intros s o s' H. unfold ret in H. injection H as <- <-.
  repeat split. exists []. split; reflexivity.
Qed.

Lemma retrieval_only_lift {A} (o : outcome A) : retrieval_only X (lift o).
Proof.
  intros s o' s' H. unfold lift in H. injection H as <- <-.
  repeat split. exists []. split; reflexivity.
Qed.

Lemma retrieval_only_call {A} ev (f : World X -> outcome A * World X) :
  is_retrieval_event ev = true -> retrieval_only X (call ev f).
Proof.
  intros Hev s o s' H. unfold call in H.
  destruct (f (world s)) as [o1 w]. injection H as <- <-. simpl.
  repeat split. exists [ev]. split; [reflexivity|].
  simpl. rewrite Hev. reflexivity.
Qed.

Lemma retrieval_only_step (s s1 s2 : State X) :
  (reranker_service s1 = reranker_service s /\
   llm_service s1 = llm_service s /\
   exists evs, trace s1 = evs ++ trace s /\
               forallb is_retrieval_event evs = true) ->
  (reranker_service s2 = reranker_service s1 /\
   llm_service s2 = llm_service s1 /\
   exists evs, trace s2 = evs ++ trace s1 /\
               forallb is_retrieval_event evs = true) ->
  reranker_service s2 = reranker_service s /\
  llm_service s2 = llm_service s /\
  exists evs, trace s2 = evs ++ trace s /\
              forallb is_retrieval_event evs = true.
Proof.
  intros [Hr1 [Hl1 [evs1 [Ht1 Hf1]]]] [Hr2 [Hl2 [evs2 [Ht2 Hf2]]]].
  split; [congruence|]. split; [congruence|].
  exists (evs2 ++ evs1). split.
  - rewrite Ht2, Ht1. apply app_assoc.
  - rewrite forallb_app, Hf1, Hf2. reflexivity.
Qed.

Lemma retrieval_only_bind {A B} (m : M X A) (k : A -> M X B) :
  retrieval_only X m -> (forall a, retrieval_only X (k a)) ->
  retrieval_only X (bind m k).
Proof.
  intros Hm Hk s o s' H. unfold bind in H.
  destruct (m s) as [[a|e] s1] eqn:Em.
  - eapply retrieval_only_step; [eapply Hm; exact Em|].
    eapply Hk; exact H.
  - injection H as <- <-. eapply Hm; exact Em.
Qed.

Lemma retrieval_only_try {A} (m : M X A) (h : exn -> M X A) :
  retrieval_only X m -> (forall e, retrieval_only X (h e)) ->
  retrieval_only X (try_except m h).
Proof.
  intros Hm Hh s o s' H. unfold try_except in H.
  destruct (m s) as [[a|e] s1] eqn:Em.
  - injection H as <- <-. eapply Hm; exact Em.
  - eapply retrieval_only_step; [eapply Hm; exact Em|].
    eapply Hh; exact H.
Qed.

Lemma string_matching_retrieval_only user_ingredients top_k :
  retrieval_only X (RAGPipeline.string_matching user_ingredients top_k).
Proof.
  unfold RAGPipeline.string_matching.
  apply retrieval_only_bind.
  - apply retrieval_only_call. reflexivity.
  - intros a. apply retrieval_only_ret.
Qed.

(** [_retrieve] only makes calls of the retrieval stage and leaves the
    reranker and the generator as they are. *)
Lemma _retrieve_retrieval_only user_ingredients top_k :
  retrieval_only X (RAGPipeline._retrieve user_ingredients top_k).
Proof.
  unfold RAGPipeline._retrieve.
  apply retrieval_only_try;
    [|intros e; apply string_matching_retrieval_only].
  apply retrieval_only_bind; [apply retrieval_only_call; reflexivity|].
  intros loaded. destruct loaded; simpl.
  - repeat (apply retrieval_only_bind;
            [apply retrieval_only_call; reflexivity | intros ?]).
    apply retrieval_only_lift.
  - apply string_matching_retrieval_only.
Qed.


End RetrievalLemmas.

(* ================================================================== *)
(** ** Substrings *)
(* ================================================================== *)

Section Substrings.

Lemma prefix_spec (sub s : string) :
  String.prefix sub s = true <-> exists post, s = (sub ++ post)%string.
Proof.
  revert s. induction sub as [|c sub IH]; intros s.
  - destruct s; simpl; (split; [intros _; eexists; reflexivity | reflexivity]).
  - destruct s as [|d s]; simpl.
    + split; [discriminate | intros [post H]; discriminate].
    + destruct (ascii_dec c d) as [->|Hne].
      * rewrite IH. split; intros [post H]; exists post;
          [rewrite H; reflexivity | injection H as ->; reflexivity].
      * split; [discriminate|]. intros [post H]. injection H as <- _.
        congruence.
Qed.

(** [sub in s] holds exactly when [s] is [pre + sub + post]. *)
Lemma contains_spec (sub s : string) :
  PyStr.contains sub s = true <->
  exists pre post, s = (pre ++ sub ++ post)%string.
Proof.
  induction s as [|d s IH]; cbn [PyStr.contains].
  - rewrite prefix_spec. split.
    + intros [post H]. exists EmptyString, post. exact H.
    + intros [pre [post H]]. destruct pre; [exists post; exact H|].
      discriminate.
  - rewrite orb_true_iff, IH, prefix_spec. split.
    + intros [[post H] | [pre [post H]]].
      * exists EmptyString, post. exact H.
      * exists (String d pre), post. simpl. rewrite H. reflexivity.
    + intros [pre [post H]]. destruct pre as [|c pre]; simpl in H.
      * left. exists post. exact H.
      * right. injection H as _ ->. exists pre, post. reflexivity.
Qed.
End Substrings.

(* ================================================================== *)
(** ** The pipeline: annotation and the whole request *)
(* ================================================================== *)

Section AnnotationLemmas.
Variable lower : string -> string.

Lemma match_loop_filter low user_ingredients acc :
  RAGPipeline.match_loop lower low user_ingredients acc
  = acc ++ filter (fun i => PyStr.contains (lower i) low) user_ingredients.
Proof.
  revert acc. induction user_ingredients as [|i l IH]; intros acc; simpl.
  - rewrite app_nil_r. reflexivity.
  - destruct (PyStr.contains (lower i) low); rewrite IH.
    + rewrite <- app_assoc. reflexivity.
    + reflexivity.
Qed.

Lemma annotate_loop_map user_ingredients reranked acc :
  RAGPipeline.annotate_loop lower user_ingredients reranked acc
  = acc ++ map (annotated lower user_ingredients) reranked.
Proof.
  revert acc. induction reranked as [|[recipe score] l IH]; intros acc; simpl.
  - rewrite app_nil_r. reflexivity.
  - rewrite IH, <- app_assoc, match_loop_filter. reflexivity.
Qed.

Lemma annotate_loop_length user_ingredients reranked :
  length (RAGPipeline.annotate_loop lower user_ingredients reranked [])
  = length reranked.
Proof. rewrite annotate_loop_map. simpl. apply length_map. Qed.
End AnnotationLemmas.

Section ProcessLemmas.
Context {X : Externals}.
Import RAGPipeline.

(** The wrapper [_rerank] adds nothing to [rerank_by_ingredients]: its
    handler is never reached and the empty list is answered alike. *)
Lemma _rerank_eq user_ingredients recipes top_k (s : State X) :
  _rerank user_ingredients recipes top_k s
  = RerankerService.rerank_by_ingredients user_ingredients recipes top_k s.
Proof.
  unfold _rerank, try_except, RerankerService.rerank_by_ingredients.
  destruct recipes as [|r0 recipes]; simpl.
  - unfold RerankerService.rerank, bind, get_reranker, ret. simpl.
    destruct (RerankerAttrs.enabled (reranker_service s)); simpl;
      [reflexivity | rewrite dummy_scores_nil; reflexivity].
  - destruct (rerank_cases
                (RerankerService._prepare_query_text user_ingredients)
                (r0 :: recipes) top_k s) as [res [s' [H _]]].
    rewrite H. reflexivity.
Qed.

Lemma _rerank_total user_ingredients recipes top_k (s : State X) :
  exists res s', _rerank user_ingredients recipes top_k s = (Ret res, s').
Proof.
  rewrite _rerank_eq. unfold RerankerService.rerank_by_ingredients.
  destruct (rerank_cases
              (RerankerService._prepare_query_text user_ingredients)
              recipes top_k s) as [res [s' [H _]]].
  exists res, s'. exact H.
Qed.

Lemma _generate_total user_ingredients reranked prefs excluded (s : State X) :
  exists o s', _generate user_ingredients reranked prefs excluded s = (Ret o, s').
Proof.
  rewrite _generate_eq.
  destruct (generate_explanation_cases user_ingredients (map fst reranked)
              prefs excluded s) as [o [s' [H _]]].
  exists o, s'. exact H.
Qed.

(** The two shapes of an answer of [process]. *)
Lemma process_inv user_ingredients prefs excluded top_k explain
    retrieval_top_k (s : State X) r s' :
  process user_ingredients prefs excluded top_k explain retrieval_top_k s
  = (Ret r, s') ->
  (_retrieve user_ingredients retrieval_top_k s = (Ret [], s')
   /\ r = empty_result)
  \/
  (exists (retrieved : list Recipe) (reranked : list (Recipe * R)),
      retrieved <> [] /\
      recipes r = map (annotated (str_lower X) user_ingredients) reranked /\
      dict_get (metadata r) "retrieval_count"
      = Some (MInt (Z.of_nat (length retrieved))) /\
      dict_get (metadata r) "reranked_count"
      = Some (MInt (Z.of_nat (length reranked))) /\
      dict_get (metadata r) "pipeline_stages"
      = Some (MStages (["retrieval"; "reranking"]
                       ++ (if explain then ["generation"] else []))) /\
      (exists b, dict_get (metadata r) "retriever_used" = Some (MBool b)) /\
      (exists b, dict_get (metadata r) "reranker_used" = Some (MBool b)) /\
      (exists b, dict_get (metadata r) "llm_used" = Some (MBool b))).
Proof.
  unfold process. intros H.
  apply bind_ret_inv in H. destruct H as [retrieved [s1 [Hret H]]].
  destruct retrieved as [|r0 retrieved]; simpl in H.
  - left. unfold ret in H. injection H as <- <-. split; [exact Hret | reflexivity].
  - right.
    apply bind_ret_inv in H. destruct H as [reranked [s2 [_ H]]].
    apply bind_ret_inv in H. destruct H as [expl [s3 [_ H]]].
    apply bind_ret_inv in H. destruct H as [b1 [s4 [_ H]]].
    apply bind_ret_inv in H. destruct H as [b2 [s5 [_ H]]].
    apply bind_ret_inv in H. destruct H as [b3 [s6 [_ H]]].
    unfold ret in H. injection H as <- <-.
    exists (r0 :: retrieved), reranked. simpl.
    split; [discriminate|].
    split; [rewrite annotate_loop_map; reflexivity|].
    repeat split; eexists; reflexivity.
Qed.

(** When nothing is retrieved, [process] stops there. *)
Lemma process_short_circuit user_ingredients prefs excluded top_k explain
    retrieval_top_k (s s1 : State X) :
  _retrieve user_ingredients retrieval_top_k s = (Ret [], s1) ->
  process user_ingredients prefs excluded top_k explain retrieval_top_k s
  = (Ret empty_result, s1).
Proof.
  intros H. unfold process.
  rewrite (bind_ret_intro _ _ _ _ _ H). reflexivity.
Qed.
End ProcessLemmas.

Section ProcessTheorems.
Context {X : Externals}.
Import RAGPipeline.




(** C3.  When retrieval gives no candidate, [process] returns the result
    with no recipe, no explanation, both counts 0 and ["retrieval"] as the
    only stage; the state is the one left by retrieval, so the reranker and
    the generator are as before and every call made belongs to the
    retrieval stage. *)
Theorem process_zero_candidates (user_ingredients : list string)
    (user_preferences : option Preferences)
    (excluded_ingredients : option (list string))
    (top_k : Z) (explain : bool) (retrieval_top_k : Z) (s s1 : State X) :
  _retrieve user_ingredients retrieval_top_k s = (Ret [], s1) ->
  exists r,
    process user_ingredients user_preferences excluded_ingredients top_k
      explain retrieval_top_k s = (Ret r, s1) /\
    recipes r = [] /\
    explanation r = None /\
    metadata r = [ ("retrieval_count", MInt 0);
                   ("reranked_count", MInt 0);
                   ("pipeline_stages", MStages ["retrieval"]) ] /\
    reranker_service s1 = reranker_service s /\
    llm_service s1 = llm_service s /\
    exists evs,
      trace s1 = evs ++ trace s /\
      forallb is_retrieval_event evs = true.
Proof.
  intros H. exists empty_result.
  split; [apply process_short_circuit; exact H|].
  split; [reflexivity|]. split; [reflexivity|]. split; [reflexivity|].
  exact (_retrieve_retrieval_only user_ingredients retrieval_top_k _ _ _ H).
Qed.

(** C10.  In every result of [process], [reranked_count] is the number
    of recipes of the result. *)
Theorem reranked_count_is_recipe_count (user_ingredients : list string)
    (user_preferences : option Preferences)
    (excluded_ingredients : option (list string))
    (top_k : Z) (explain : bool) (retrieval_top_k : Z)
    (s s' : State X) (r : PipelineResult) :
  process user_ingredients user_preferences excluded_ingredients top_k
    explain retrieval_top_k s = (Ret r, s') ->
  dict_get (metadata r) "reranked_count"
  = Some (MInt (Z.of_nat (length (recipes r)))).
Proof.
  intros H. apply process_inv in H.
  destruct H as [[_ ->] | [retrieved [reranked [_ [Hr [_ [Hc _]]]]]]].
  - reflexivity.
  - rewrite Hr, length_map. exact Hc.
Qed.

(** C6, as amended.  In every result of [process], each recipe has
    [matchingCount] equal to the length of [matchingIngredients];
    [matchingIngredients] is the list of the user's ingredients that occur,
    case ignored, in the raw ingredient text of the recipe (the ingredient
    lowered by [str.lower] is a piece of the lowered text), in the order of
    the user's list and as many times as the user gave them, so it has no
    duplicates when the user's list has none.  [str.lower] is the one of the
    run time, whatever characters it folds. *)
Theorem annotation_invariant (user_ingredients : list string)
    (user_preferences : option Preferences)
    (excluded_ingredients : option (list string))
    (top_k : Z) (explain : bool) (retrieval_top_k : Z)
    (s s' : State X) (r : PipelineResult) :
  process user_ingredients user_preferences excluded_ingredients top_k
    explain retrieval_top_k s = (Ret r, s') ->
  Forall
    (fun rm =>
       matchingCount rm = Z.of_nat (length (matchingIngredients rm)) /\
       matchingIngredients rm
       = matches (str_lower X) user_ingredients (base rm) /\
       (forall i, In i (matchingIngredients rm) <->
                  In i user_ingredients /\
                  ci_substring (str_lower X) i (Ingredients (base rm))) /\
       (NoDup user_ingredients -> NoDup (matchingIngredients rm)))
    (recipes r).
Proof.
  intros H. apply process_inv in H.
  destruct H as [[_ ->] | [retrieved [reranked [_ [Hr _]]]]].
  - constructor.
  - rewrite Hr. apply Forall_forall. intros rm Hin.
    apply in_map_iff in Hin. destruct Hin as [p [<- _]].
    unfold annotated. simpl.
    split; [reflexivity|]. split; [reflexivity|]. split.
    + intros i. unfold matches. rewrite filter_In.
      unfold ci_substring. rewrite contains_spec. reflexivity.
    + intros Hnd. unfold matches. apply NoDup_filter. exact Hnd.
Qed.
End ProcessTheorems.

(* ================================================================== *)
(** ** The candidate text of the reranker *)
(* ================================================================== *)

Section Words.



























End Words.

Section CandidateText.
Import RerankerService.





End CandidateText.

(* ================================================================== *)
(** ** Resolving the identifiers of the index *)
(* ================================================================== *)

Section Collect.
Import RAGPipeline.

(** X15.  Identifiers that are not negative: those below the size of the
    corpus are resolved to the recipe at that position, in order, the others
    are dropped. *)
Lemma collect_nonnegative (all_recipes : list Recipe) (indices : list Z)
    (acc : list Recipe) :
  Forall (fun idx => (0 <= idx)%Z) indices ->
  collect all_recipes indices acc
  = Ret (acc ++
         flat_map
           (fun idx =>
              match nth_error all_recipes (Z.to_nat idx) with
              | Some recipe => [recipe]
              | None => []
              end) indices).
Proof.
  revert acc. induction indices as [|idx l IH]; intros acc H; simpl.
  - rewrite app_nil_r. reflexivity.
  - inversion H as [|? ? Hidx Hl]; subst.
    unfold PyList.index.
    destruct (Z.leb_spec 0 idx) as [_|]; [|lia].
    destruct (Z.ltb_spec idx (Z.of_nat (length all_recipes))) as [Hlt|Hge].
    + destruct (nth_error all_recipes (Z.to_nat idx)) as [r|] eqn:En.
      * rewrite IH by exact Hl. rewrite <- app_assoc. reflexivity.
      * apply nth_error_None in En. lia.
    + assert (En : nth_error all_recipes (Z.to_nat idx) = None)
        by (apply nth_error_None; lia).
      rewrite En. simpl. apply IH. exact Hl.
Qed.

(** At most one recipe for each identifier. *)
Lemma collect_length (all_recipes : list Recipe) (indices : list Z)
    (acc l : list Recipe) :
  collect all_recipes indices acc = Ret l ->
  (length l <= length acc + length indices)%nat.
Proof.
  revert acc. induction indices as [|idx rest IH]; intros acc H; simpl in *.
  - injection H as <-. lia.
  - destruct (idx <? Z.of_nat (length all_recipes))%Z.
    + destruct (PyList.index all_recipes idx); [|discriminate].
      apply IH in H. rewrite length_app in H. simpl in H. lia.
    + apply IH in H. lia.
Qed.
End Collect.

(* ================================================================== *)
(** ** The properties at concrete requests *)
(* ================================================================== *)


(* ================================================================== *)
(** ** The properties at concrete requests *)
(* ================================================================== *)

Lemma healthy_one_score_per_pair : one_score_per_pair Demo.healthy.
Proof.
  intros m pairs batch w scores w' H. simpl in H. unfold Demo.by_length in H.
  injection H as <- _. apply length_map.
Qed.





(** The request of the witness above, run: the vector search raises, so
    the two recipes of the string matching are retrieved; the cross-encoder
    cannot be built, so the first of them is returned; the generation
    raises, so there is no explanation. *)
Example degraded_request :
  fst (RAGPipeline.process (X:=Cases.degraded) ["egg"; "flour"] None
         (Some ["nuts"]) 1 true 50 (Demo.start Cases.degraded tt))
  = Ret (mkPipelineResult
           [mkRecipeWithMatch Demo.omelette 1 ["egg"]]
           None
           [ ("retrieval_count", MInt 2);
             ("reranked_count", MInt 1);
             ("pipeline_stages", MStages ["retrieval"; "reranking"; "generation"]);
             ("retriever_used", MBool true);
             ("reranker_used", MBool false);
             ("llm_used", MBool true) ]).
Proof. reflexivity. Qed.


Lemma load_failure_is_permanent_witness :
  exists s1,
    RerankerService.rerank (X:=Demo.no_encoder) "Recipe with egg" Demo.corpus 2
      (Demo.start Demo.no_encoder tt)
    = (Ret (RerankerService.dummy_scores Demo.corpus 2), s1) /\
    trace s1 = ERerankerLoad :: trace (Demo.start Demo.no_encoder tt) /\
    (exists info,
        RerankerService.get_model_info (Demo.start Demo.no_encoder tt)
        = (Ret info, Demo.start Demo.no_encoder tt) /\
        RerankerService.info_enabled info = true /\
        RerankerService.loaded info = false) /\
    (exists info,
        RerankerService.get_model_info s1 = (Ret info, s1) /\
        RerankerService.info_enabled info = false /\
        RerankerService.loaded info = false) /\
    forall calls s2,
      reranker_service s2 = reranker_service s1 ->
      rerank_calls Demo.no_encoder calls s2
      = (Ret (map (fun c => RerankerService.dummy_scores (snd (fst c)) (snd c))
                calls), s2).
Proof.
  apply (load_failure_is_permanent (X:=Demo.no_encoder) "Recipe with egg"
           Demo.corpus 2 (Demo.start Demo.no_encoder tt)
           "OSError: model not found" tt).
  - reflexivity.
  - reflexivity.
  - discriminate.
  - reflexivity.
Defined.

Lemma process_zero_candidates_witness :
  exists r,
    RAGPipeline.process (X:=Demo.nothing_found) ["egg"] None None 10 true 50
      (Demo.start Demo.nothing_found tt)
    = (Ret r,
       snd (RAGPipeline._retrieve (X:=Demo.nothing_found) ["egg"] 50
              (Demo.start Demo.nothing_found tt))) /\
    recipes r = [] /\
    explanation r = None /\
    metadata r = [ ("retrieval_count", MInt 0);
                   ("reranked_count", MInt 0);
                   ("pipeline_stages", MStages ["retrieval"]) ] /\
    reranker_service
      (snd (RAGPipeline._retrieve (X:=Demo.nothing_found) ["egg"] 50
              (Demo.start Demo.nothing_found tt)))
    = reranker_service (Demo.start Demo.nothing_found tt) /\
    llm_service
      (snd (RAGPipeline._retrieve (X:=Demo.nothing_found) ["egg"] 50
              (Demo.start Demo.nothing_found tt)))
    = llm_service (Demo.start Demo.nothing_found tt) /\
    exists evs,
      trace
        (snd (RAGPipeline._retrieve (X:=Demo.nothing_found) ["egg"] 50
                (Demo.start Demo.nothing_found tt)))
      = evs ++ trace (Demo.start Demo.nothing_found tt) /\
      forallb is_retrieval_event evs = true.
Proof.
  apply (process_zero_candidates (X:=Demo.nothing_found)).
  reflexivity.
Defined.

(** C4.  A request on which nothing is retrieved: the metadata of the
    result names the stage but has none of the keys [retriever_used],
    [reranker_used], [llm_used], which the result of a request with
    candidates has. *)
Theorem short_circuit_metadata_has_no_flags :
  exists r s',
    RAGPipeline.process (X:=Demo.nothing_found) ["egg"] None None 10 true 50
      (Demo.start Demo.nothing_found tt) = (Ret r, s') /\
    dict_get (metadata r) "pipeline_stages" = Some (MStages ["retrieval"]) /\
    dict_get (metadata r) "retriever_used" = None /\
    dict_get (metadata r) "reranker_used" = None /\
    dict_get (metadata r) "llm_used" = None.
Proof.
  eexists _, _. split; [reflexivity|]. repeat split; reflexivity.
Qed.

(** C5.  The index is loaded and answers the identifier -1 for a corpus of
    three recipes: [_retrieve] does not drop it, it returns the last recipe
    of the corpus. *)
Theorem negative_identifier_is_not_discarded :
  fst (RAGPipeline._retrieve (X:=Demo.padded_index) ["egg"] 50
         (Demo.start Demo.padded_index tt))
  = Ret [Demo.toast].
Proof. reflexivity. Qed.

(** C6 fails as stated: an ingredient that the user gives twice is twice
    in [matchingIngredients]. *)
Lemma matching_ingredients_can_repeat :
  exists r s' rm,
    RAGPipeline.process (X:=Demo.healthy) ["egg"; "egg"] None None 10 false 50
      (Demo.start_without_reranker Demo.healthy tt) = (Ret r, s') /\
    In rm (recipes r) /\
    matchingIngredients rm = ["egg"; "egg"] /\
    ~ NoDup (matchingIngredients rm).
Proof.
  eexists _, _, _. split; [lazy; reflexivity|].
  split; [left; reflexivity|]. split; [reflexivity|].
  simpl. intros H. inversion H as [|x l Hin Hnd]; subst.
  apply Hin. left. reflexivity.
Qed.

Lemma annotation_invariant_witness :
  Forall
    (fun rm =>
       matchingCount rm = Z.of_nat (length (matchingIngredients rm)) /\
       matchingIngredients rm
       = matches (str_lower Demo.healthy) ["egg"; "flour"] (base rm) /\
       (forall i, In i (matchingIngredients rm) <->
                  In i ["egg"; "flour"] /\
                  ci_substring (str_lower Demo.healthy) i
                    (Ingredients (base rm))) /\
       (NoDup ["egg"; "flour"] -> NoDup (matchingIngredients rm)))
    (recipes
       (Demo.answer empty_result
          (RAGPipeline.process (X:=Demo.healthy) ["egg"; "flour"] None None 10
             false 50 (Demo.start_without_reranker Demo.healthy tt)))).
Proof.
  apply (annotation_invariant (X:=Demo.healthy) ["egg"; "flour"] None None 10
           false 50 (Demo.start_without_reranker Demo.healthy tt)
           (snd (RAGPipeline.process (X:=Demo.healthy) ["egg"; "flour"] None
                   None 10 false 50
                   (Demo.start_without_reranker Demo.healthy tt)))).
  reflexivity.
Defined.

Lemma reranked_count_is_recipe_count_witness :
  dict_get
    (metadata
       (Demo.answer empty_result
          (RAGPipeline.process (X:=Demo.healthy) ["egg"; "flour"] None None 1
             true 50 (Demo.start_without_reranker Demo.healthy tt))))
    "reranked_count"
  = Some (MInt (Z.of_nat (length
       (recipes
          (Demo.answer empty_result
             (RAGPipeline.process (X:=Demo.healthy) ["egg"; "flour"] None None
                1 true 50 (Demo.start_without_reranker Demo.healthy tt))))))).
Proof.
  apply (reranked_count_is_recipe_count (X:=Demo.healthy) ["egg"; "flour"]
           None None 1 true 50 (Demo.start_without_reranker Demo.healthy tt)
           (snd (RAGPipeline.process (X:=Demo.healthy) ["egg"; "flour"] None
                   None 1 true 50
                   (Demo.start_without_reranker Demo.healthy tt)))).
  reflexivity.
Defined.

Lemma generate_explanation_none_witness :
  exists s',
    LLMService.generate_explanation (X:=Demo.no_generation) ["egg"]
      [Demo.omelette] None None (Demo.start Demo.no_generation tt)
    = (Ret None, s').
Proof.
  apply (generate_explanation_none (X:=Demo.no_generation) ["egg"]
           [Demo.omelette] None None (Demo.start Demo.no_generation tt)).
  right. right. right.
  exists tt, tt, tt, "ResourceExhausted: 429", tt.
  repeat split; reflexivity.
Defined.



(* ================================================================== *)
(** ** Beyond the specification: the query and the ranking *)
(* ================================================================== *)

(** X1.  With more than three ingredients the query of the reranker names
    the first five only: two lists of more than three ingredients that agree
    on their first five give the same query. *)
Theorem query_reads_first_five (l1 l2 : list string) :
  (3 < length l1)%nat -> (3 < length l2)%nat ->
  firstn 5 l1 = firstn 5 l2 ->
  RerankerService._prepare_query_text l1
  = RerankerService._prepare_query_text l2.
Proof.
  intros H1 H2 H5. unfold RerankerService._prepare_query_text.
  assert (E : forall l : list string, (3 < length l)%nat ->
             PyList.truthy l = true /\ (length l =? 1)%nat = false
             /\ (length l <=? 3)%nat = false).
  { intros l Hl. split; [destruct l; [simpl in Hl; lia | reflexivity]|].
    split; [apply Nat.eqb_neq; lia | apply Nat.leb_gt; exact Hl]. }
  destruct (E l1 H1) as [-> [-> ->]]. destruct (E l2 H2) as [-> [-> ->]].
  cbn [negb]. rewrite H5. reflexivity.
Qed.

Lemma query_reads_first_five_witness :
  RerankerService._prepare_query_text ["a"; "b"; "c"; "d"; "e"; "f"]
  = RerankerService._prepare_query_text ["a"; "b"; "c"; "d"; "e"; "g"; "h"].
Proof.
  apply query_reads_first_five; [simpl; lia | simpl; lia | reflexivity].
Defined.

Lemma Reqb_true (x y : R) : Reqb x y = true <-> x = y.
Proof. unfold Reqb. destruct (Req_dec_T x y); split; congruence. Qed.

Lemma with_score_insert {A} (x : R) (p : A * R) (l : list (A * R)) :
  with_score x (insert_desc p l) = with_score x (p :: l).
Proof.
  unfold with_score. induction l as [|q l IH]; [reflexivity|].
  cbn [insert_desc]. destruct (Rleb (snd q) (snd p)) eqn:E; [reflexivity|].
  apply Rleb_false in E. cbn [filter] in *. rewrite IH.
  destruct (Reqb (snd p) x) eqn:Ep; [|reflexivity].
  destruct (Reqb (snd q) x) eqn:Eq; [|reflexivity].
  apply Reqb_true in Ep. apply Reqb_true in Eq. lra.
Qed.

(** X2.  The sort of [rerank] is stable: the entries that have a given
    score come out in the order in which they went in. *)
Theorem sort_desc_stable {A} (x : R) (l : list (A * R)) :
  with_score x (sort_desc l) = with_score x l.
Proof.
  induction l as [|p l IH]; [reflexivity|].
  cbn [sort_desc fold_right]. fold (sort_desc l).
  rewrite with_score_insert. unfold with_score in *. cbn [filter].
  rewrite IH. reflexivity.
Qed.

(* ================================================================== *)
(** ** Beyond the specification: the prompt and the explanation *)
(* ================================================================== *)

(** X4.  The prompt shows ten recipes at most: the recipes after the tenth
    do not change it. *)
Theorem prompt_reads_first_ten (user_ingredients : list string)
    (recommended_recipes : list Recipe)
    (user_preferences : option Preferences)
    (excluded_ingredients : option (list string)) :
  LLMService._build_prompt user_ingredients recommended_recipes
    user_preferences excluded_ingredients
  = LLMService._build_prompt user_ingredients (firstn 10 recommended_recipes)
      user_preferences excluded_ingredients.
Proof.
  unfold LLMService._build_prompt.
  replace (PyList.slice_to (firstn 10 recommended_recipes) 10)
    with (PyList.slice_to recommended_recipes 10); [reflexivity|].
  unfold PyList.slice_to. cbn [Z.leb Z.compare Z.to_nat Pos.to_nat].
  change (Z.to_nat 10) with 10%nat.
  rewrite firstn_firstn. reflexivity.
Qed.

(** X5.  For a vegan user the prompt does not depend on the vegetarian
    flag: two dictionaries of preferences that are not empty, both vegan and
    equal on every key but ["vegetarian"], give the same prompt. *)
Theorem vegan_hides_vegetarian (user_ingredients : list string)
    (recommended_recipes : list Recipe) (prefs prefs' : Preferences)
    (excluded_ingredients : option (list string)) :
  prefs <> [] -> prefs' <> [] ->
  pref_get prefs "vegan" = true ->
  (forall k, k <> "vegetarian" -> pref_get prefs' k = pref_get prefs k) ->
  LLMService._build_prompt user_ingredients recommended_recipes
    (Some prefs) excluded_ingredients
  = LLMService._build_prompt user_ingredients recommended_recipes
      (Some prefs') excluded_ingredients.
Proof.
  intros Hne Hne' Hv Hk. unfold LLMService._build_prompt.
  assert (Ht : PyList.truthy prefs = true)
    by (destruct prefs; [congruence | reflexivity]).
  assert (Ht' : PyList.truthy prefs' = true)
    by (destruct prefs'; [congruence | reflexivity]).
  rewrite Ht, Ht'.
  rewrite (Hk "vegan"), (Hk "glutenFree"), (Hk "dairyFree"),
    (Hk "nutAllergy") by discriminate.
  rewrite Hv. cbn [negb]. rewrite !andb_false_r. reflexivity.
Qed.

Lemma vegan_hides_vegetarian_witness :
  LLMService._build_prompt ["egg"] [Demo.omelette]
    (Some [("vegan", true); ("vegetarian", true)]) None
  = LLMService._build_prompt ["egg"] [Demo.omelette]
      (Some [("vegetarian", false); ("vegan", true)]) None.
Proof.
  apply vegan_hides_vegetarian; [discriminate | discriminate | reflexivity |].
  intros k Hk. cbn [pref_get].
  destruct (String.eqb_spec "vegetarian" k) as [E|_]; [congruence|].
  destruct (String.eqb "vegan" k); reflexivity.
Defined.

(** X6.  Preferences none of which is set, and an empty list of excluded
    ingredients, leave no line in the prompt: it is the prompt of a request
    without preferences and without exclusions. *)
Theorem inactive_preferences_leave_no_line (user_ingredients : list string)
    (recommended_recipes : list Recipe) (prefs : Preferences) :
  (forall k, In k preference_keys -> pref_get prefs k = false) ->
  LLMService._build_prompt user_ingredients recommended_recipes
    (Some prefs) (Some [])
  = LLMService._build_prompt user_ingredients recommended_recipes None None.
Proof.
  intros H. unfold LLMService._build_prompt.
  rewrite (H "vegan"), (H "vegetarian"), (H "glutenFree"), (H "dairyFree"),
    (H "nutAllergy") by (unfold preference_keys; simpl; tauto).
  cbn [andb app PyList.truthy].
  destruct (PyList.truthy prefs); reflexivity.
Qed.

Lemma inactive_preferences_leave_no_line_witness :
  LLMService._build_prompt ["egg"] [Demo.omelette]
    (Some [("vegan", false); ("kosher", true)]) (Some [])
  = LLMService._build_prompt ["egg"] [Demo.omelette] None None.
Proof.
  apply inactive_preferences_leave_no_line.
  intros k Hk. unfold preference_keys in Hk. simpl in Hk.
  destruct Hk as [<-|[<-|[<-|[<-|[<-|[]]]]]]; reflexivity.
Defined.





Section GeneratorEffects.
Context {X : Externals}.
Import LLMAttrs LLMService.

Ltac run_llm :=
  unfold generate_explanation, _load_model, is_available, bind, get_llm,
    set_llm, call, raise, ret, try_except; simpl.


(** A generator that is switched off answers [None] and touches nothing. *)
Lemma generate_explanation_disabled user_ingredients recommended_recipes
    user_preferences excluded_ingredients (s : State X) :
  enabled (llm_service s) = false ->
  generate_explanation user_ingredients recommended_recipes user_preferences
    excluded_ingredients s = (Ret None, s).
Proof.
  intros He. unfold generate_explanation, bind, get_llm, ret. rewrite He.
  destruct recommended_recipes; reflexivity.
Qed.

(** X8.  When the Gemini client cannot be built on the first use, the call
    answers [None] and leaves the service switched off and not loaded; from
    then on every call of [generate_explanation], in whatever state of the
    world, answers [None] and calls no collaborator. *)
Theorem client_failure_is_permanent (user_ingredients : list string)
    (recommended_recipes : list Recipe)
    (user_preferences : option Preferences)
    (excluded_ingredients : option (list string)) (s : State X) :
  recommended_recipes <> [] ->
  enabled (llm_service s) = true ->
  truthy_opt (api_key (llm_service s)) = true ->
  llm_load_fails X s ->
  exists s1,
    generate_explanation user_ingredients recommended_recipes
      user_preferences excluded_ingredients s = (Ret None, s1) /\
    enabled (llm_service s1) = false /\
    _model_loaded (llm_service s1) = false /\
    forall ui rs prefs excluded s2,
      llm_service s2 = llm_service s1 ->
      generate_explanation ui rs prefs excluded s2 = (Ret None, s2).
Proof.
  intros Hr He Hk [Hl Hf].
  destruct s as [w rr [key nm mt temp en mo ld] tr].
  unfold configured_key in Hf. simpl in *. subst en ld.
  destruct recommended_recipes as [|r0 rs]; [congruence|].
  assert (Hlater : forall s1 : State X,
             enabled (llm_service s1) = false ->
             forall ui rs' prefs excluded s2,
               llm_service s2 = llm_service s1 ->
               generate_explanation ui rs' prefs excluded s2 = (Ret None, s2)).
  { intros s1 H1 ui rs' prefs excluded s2 H2.
    apply generate_explanation_disabled. rewrite H2. exact H1. }
  destruct Hf as [[e [w1 Hc]] | [w1 [e [w2 [Hc Hm]]]]].
  - eexists. split.
    { run_llm. repeat (rewrite Hk; simpl). rewrite Hc. simpl. reflexivity. }
    split; [reflexivity|]. split; [reflexivity|].
    apply Hlater. reflexivity.
  - eexists. split.
    { run_llm. repeat (rewrite Hk; simpl). rewrite Hc. simpl.
      rewrite Hm. simpl. reflexivity. }
    split; [reflexivity|]. split; [reflexivity|].
    apply Hlater. reflexivity.
Qed.

(** X9.  With a client that is built, [generate_explanation] makes one
    call, the generation, and leaves the attributes of the service as they
    are, whether the generation returns or raises: the client is not built
    again and a failed generation does not switch the service off. *)
Theorem built_client_is_reused (user_ingredients : list string)
    (recommended_recipes : list Recipe)
    (user_preferences : option Preferences)
    (excluded_ingredients : option (list string)) (s : State X)
    (m : GenerativeModel X) :
  recommended_recipes <> [] ->
  enabled (llm_service s) = true ->
  truthy_opt (api_key (llm_service s)) = true ->
  _model_loaded (llm_service s) = true ->
  model (llm_service s) = Some m ->
  exists o s1,
    generate_explanation user_ingredients recommended_recipes
      user_preferences excluded_ingredients s = (Ret o, s1) /\
    llm_service s1 = llm_service s /\
    reranker_service s1 = reranker_service s /\
    trace s1 = EGenaiGenerate :: trace s.
Proof.
  intros Hr He Hk Hl Hm.
  destruct s as [w rr [key nm mt temp en mo ld] tr]. simpl in *.
  subst en ld mo.
  destruct recommended_recipes as [|r0 rs]; [congruence|].
  run_llm. repeat (rewrite Hk; simpl).
  destruct (generate_content_text X m _ temp mt w) as [[t|e] w'];
    eexists _, _; (split; [reflexivity|]); repeat split; reflexivity.
Qed.
End GeneratorEffects.


Lemma client_failure_is_permanent_witness :
  exists s1,
    LLMService.generate_explanation (X:=Cases.no_client) ["egg"]
      [Demo.omelette] None None (Demo.start Cases.no_client tt)
    = (Ret None, s1) /\
    LLMAttrs.enabled (llm_service s1) = false /\
    LLMAttrs._model_loaded (llm_service s1) = false /\
    forall ui rs prefs excluded s2,
      llm_service s2 = llm_service s1 ->
      LLMService.generate_explanation ui rs prefs excluded s2 = (Ret None, s2).
Proof.
  apply (client_failure_is_permanent (X:=Cases.no_client)).
  - discriminate.
  - reflexivity.
  - reflexivity.
  - split; [reflexivity|]. right.
    exists tt, "PermissionDenied: API key not valid", tt.
    split; reflexivity.
Defined.

Lemma built_client_is_reused_witness :
  exists o s1,
    LLMService.generate_explanation (X:=Demo.no_generation) ["egg"]
      [Demo.omelette] None None (Cases.warm Demo.no_generation tt tt tt)
    = (Ret o, s1) /\
    llm_service s1 = llm_service (Cases.warm Demo.no_generation tt tt tt) /\
    reranker_service s1
    = reranker_service (Cases.warm Demo.no_generation tt tt tt) /\
    trace s1 = EGenaiGenerate :: trace (Cases.warm Demo.no_generation tt tt tt).
Proof.
  apply (built_client_is_reused (X:=Demo.no_generation) ["egg"]
           [Demo.omelette] None None (Cases.warm Demo.no_generation tt tt tt)
           tt).
  - discriminate.
  - reflexivity.
  - reflexivity.
  - reflexivity.
  - reflexivity.
Defined.

(* ================================================================== *)
(** ** Beyond the specification: the state of the reranker *)
(* ================================================================== *)

Section RerankerEffects.
Context {X : Externals}.
Import RerankerAttrs RerankerService.

Lemma slice_to_In {A} (l : list A) (k : Z) (x : A) :
  In x (PyList.slice_to l k) -> In x l.
Proof.
  unfold PyList.slice_to. destruct (0 <=? k)%Z; apply firstn_In.
Qed.

Lemma slice_to_length_le {A} (l : list A) (k : Z) :
  (length (PyList.slice_to l k) <= length l)%nat.
Proof.
  unfold PyList.slice_to. destruct (0 <=? k)%Z; rewrite length_firstn; lia.
Qed.

Lemma slice_to_negative_length {A} (l : list A) (k : Z) :
  (k < 0)%Z ->
  Z.of_nat (length (PyList.slice_to l k))
  = Z.max 0 (Z.of_nat (length l) + k).
Proof.
  intros Hk. unfold PyList.slice_to.
  destruct (Z.leb_spec 0 k); [lia|]. rewrite length_firstn. lia.
Qed.

(** What a call of [rerank] does to the state: it returns, leaves the
    generator alone and only calls the cross-encoder; either it does not
    build the model and leaves the attributes of the service as they are, or
    the model was not loaded and it builds it once, which succeeds (loaded)
    or fails (switched off). *)
Lemma rerank_effects query recipes top_k (s : State X) :
  exists res s' evs,
    rerank query recipes top_k s = (Ret res, s') /\
    trace s' = evs ++ trace s /\
    forallb is_reranker_event evs = true /\
    llm_service s' = llm_service s /\
    ((loads evs = 0%nat /\ reranker_service s' = reranker_service s) \/
     (loads evs = 1%nat /\
      _model_loaded (reranker_service s) = false /\
      enabled (reranker_service s) = true /\
      ((_model_loaded (reranker_service s') = true /\
        enabled (reranker_service s') = true /\
        model (reranker_service s') <> None) \/
       (_model_loaded (reranker_service s') = false /\
        enabled (reranker_service s') = false /\
        reranker_load_fails X s)))).
Proof.
  destruct s as [w [mo nm bs en ld] llm tr].
  unfold reranker_load_fails.
  unfold rerank, bind, get_reranker, ret. simpl.
  destruct en; simpl.
  2:{ eexists _, _, []. split; [reflexivity|]. split; [reflexivity|].
      split; [reflexivity|]. split; [reflexivity|]. left. split; reflexivity. }
  destruct recipes as [|r0 recipes]; simpl.
  { eexists _, _, []. split; [reflexivity|]. split; [reflexivity|].
    split; [reflexivity|]. split; [reflexivity|]. left. split; reflexivity. }
  destruct ld; simpl.
  - unfold try_except, score_and_sort, bind, get_reranker, call, raise, ret.
    simpl. destruct mo as [m|]; simpl.
    + destruct (CrossEncoder_predict X m _ bs w) as [[scores|e] w'].
      * destruct scores; simpl;
          (eexists _, _, [ERerankerPredict]; split; [reflexivity|];
           split; [reflexivity|]; split; [reflexivity|];
           split; [reflexivity|]; left; split; reflexivity).
      * eexists _, _, [ERerankerPredict]. split; [reflexivity|].
        split; [reflexivity|]. split; [reflexivity|]. split; [reflexivity|].
        left. split; reflexivity.
    + eexists _, _, []. split; [reflexivity|]. split; [reflexivity|].
      split; [reflexivity|]. split; [reflexivity|]. left. split; reflexivity.
  - unfold try_except, _load_model, score_and_sort, bind, get_reranker, call,
      set_reranker, raise, ret, try_except. simpl.
    destruct (CrossEncoder_init X nm w) as [[m|e] w1] eqn:Ei; simpl.
    + destruct (CrossEncoder_predict X m _ bs w1) as [[scores|e] w2].
      * destruct scores; simpl;
          (eexists _, _, [ERerankerPredict; ERerankerLoad];
           split; [reflexivity|]; split; [reflexivity|];
           split; [reflexivity|]; split; [reflexivity|]; right;
           split; [reflexivity|]; split; [reflexivity|];
           split; [reflexivity|]; left;
           split; [reflexivity|]; split; [reflexivity | discriminate]).
      * eexists _, _, [ERerankerPredict; ERerankerLoad].
        split; [reflexivity|]. split; [reflexivity|]. split; [reflexivity|].
        split; [reflexivity|]. right. split; [reflexivity|].
        split; [reflexivity|]. split; [reflexivity|]. left.
        split; [reflexivity|]. split; [reflexivity | discriminate].
    + eexists _, _, [ERerankerLoad].
      split; [reflexivity|]. split; [reflexivity|]. split; [reflexivity|].
      split; [reflexivity|]. right. split; [reflexivity|].
      split; [reflexivity|]. split; [reflexivity|]. right.
      split; [reflexivity|]. split; [reflexivity|].
      split; [reflexivity|]. exists e, w1. reflexivity.
Qed.
End RerankerEffects.

Section RerankerExtras.
Context {X : Externals}.
Import RerankerAttrs RerankerService.

(** The answer of [rerank] is drawn from the candidates. *)
Lemma rerank_within_candidates (query : string) (recipes : list Recipe)
    (top_k : Z) (s : State X) :
  exists res s',
    rerank query recipes top_k s = (Ret res, s') /\
    (forall p, In p res -> In (fst p) recipes) /\
    (length res <= length recipes)%nat /\
    ((0 <= top_k)%Z -> (Z.of_nat (length res) <= top_k)%Z).
Proof.
  destruct (rerank_cases query recipes top_k s)
    as [res [s' [Hr [[-> | [m [scores [w0 [w1 [_ ->]]]]]] _]]]];
    eexists _, s'; (split; [exact Hr|]).
  - unfold dummy_scores. split.
    { intros p Hp. apply in_map_iff in Hp. destruct Hp as [r [<- Hin]].
      simpl. eapply slice_to_In; exact Hin. }
    split; [rewrite length_map; apply slice_to_length_le|].
    intros Hk. rewrite length_map, slice_to_length by exact Hk. lia.
  - unfold ranked. split.
    { intros [r x] Hp. apply slice_to_In in Hp.
      apply (Permutation_in _ (Permutation_sym (sort_desc_perm _))) in Hp.
      apply in_combine_l in Hp. exact Hp. }
    split.
    { etransitivity; [apply slice_to_length_le|].
      rewrite sort_desc_length, length_combine. lia. }
    intros Hk. rewrite slice_to_length by exact Hk. lia.
Qed.

(** X10.  [rerank] only returns candidates it was given, never more of
    them than there are, and never more than [top_k] when [top_k] is not
    negative, whatever the cross-encoder answers. *)
Theorem rerank_returns_candidates (query : string) (recipes : list Recipe)
    (top_k : Z) (s : State X) :
  exists res s',
    rerank query recipes top_k s = (Ret res, s') /\
    (forall p, In p res -> In (fst p) recipes) /\
    (length res <= length recipes)%nat /\
    ((0 <= top_k)%Z -> (Z.of_nat (length res) <= top_k)%Z).
Proof. exact (rerank_within_candidates query recipes top_k s). Qed.

(** X11.  A negative [top_k] is not refused: with a cross-encoder that
    gives one score for each pair, [rerank] then returns all the candidates
    but the last [-top_k] (none when there are not that many). *)
Theorem rerank_negative_top_k (query : string) (recipes : list Recipe)
    (top_k : Z) (s : State X) :
  one_score_per_pair X ->
  (top_k < 0)%Z ->
  exists res s',
    rerank query recipes top_k s = (Ret res, s') /\
    Z.of_nat (length res) = Z.max 0 (Z.of_nat (length recipes) + top_k).
Proof.
  intros Hc Hk.
  destruct (rerank_cases query recipes top_k s)
    as [res [s' [Hr [[-> | [m [scores [w0 [w1 [Hp ->]]]]]] _]]]];
    eexists _, s'; (split; [exact Hr|]).
  - unfold dummy_scores. rewrite length_map.
    apply slice_to_negative_length. exact Hk.
  - apply Hc in Hp. rewrite length_map in Hp. unfold ranked.
    rewrite slice_to_negative_length by exact Hk.
    rewrite sort_desc_length, length_combine, length_map, Hp. lia.
Qed.

(** X12.  Only a cross-encoder that cannot be built switches the reranker
    off: from an enabled service whose model is loaded or can be built,
    [rerank] leaves the service enabled, also when scoring fails. *)
Theorem scoring_failure_keeps_reranker (query : string)
    (recipes : list Recipe) (top_k : Z) (s : State X) :
  enabled (reranker_service s) = true ->
  ~ reranker_load_fails X s ->
  exists res s',
    rerank query recipes top_k s = (Ret res, s') /\
    enabled (reranker_service s') = true.
Proof.
  intros He Hn.
  destruct (rerank_effects query recipes top_k s)
    as [res [s' [evs [Hr [_ [_ [_ Hcase]]]]]]].
  exists res, s'. split; [exact Hr|].
  destruct Hcase as [[_ Hsame] | [_ [_ [_ [[_ [H _]] | [_ [_ Hf]]]]]]].
  - rewrite Hsame. exact He.
  - exact H.
  - contradiction.
Qed.

Lemma loads_app (evs1 evs2 : list Event) :
  loads (evs1 ++ evs2) = (loads evs1 + loads evs2)%nat.
Proof. unfold loads. rewrite filter_app, length_app. reflexivity. Qed.

(** A run of calls: the model is built at most once, and not at all from a
    service that is loaded or switched off; the attributes stay consistent;
    the generator is left alone. *)
Lemma rerank_calls_effects calls (s : State X) :
  exists results s' evs,
    rerank_calls X calls s = (Ret results, s') /\
    trace s' = evs ++ trace s /\
    (loads evs <= 1)%nat /\
    (_model_loaded (reranker_service s) = true
     \/ enabled (reranker_service s) = false -> loads evs = 0%nat) /\
    (reranker_consistent s -> reranker_consistent s') /\
    llm_service s' = llm_service s.
Proof.
  revert s. induction calls as [|[[query recipes] top_k] calls IH]; intros s.
  { exists [], s, []. split; [reflexivity|]. split; [reflexivity|].
    split; [unfold loads; simpl; lia|]. split; [intros _; reflexivity|].
    split; [trivial | reflexivity]. }
  destruct (rerank_effects query recipes top_k s)
    as [res [s1 [evs1 [Hr [Ht1 [_ [Hl1 Hcase]]]]]]].
  destruct (IH s1) as [results [s' [evs2 [Hrs [Ht2 [Hle [Hzero [Hinv Hl2]]]]]]]].
  exists (res :: results), s', (evs2 ++ evs1).
  split.
  { cbn [rerank_calls]. unfold bind at 1. rewrite Hr.
    unfold bind at 1. rewrite Hrs. reflexivity. }
  split; [rewrite Ht2, Ht1; apply app_assoc|].
  rewrite loads_app.
  destruct Hcase as [[H0 Hsame] | [H1 [Hld [Hen Hafter]]]].
  - rewrite H0, Hsame in *. split; [lia|].
    split; [intros H; rewrite (Hzero H); reflexivity|].
    split; [|congruence].
    intros Hc. apply Hinv. unfold reranker_consistent in *.
    rewrite Hsame. exact Hc.
  - assert (Hz : loads evs2 = 0%nat).
    { apply Hzero. destruct Hafter as [[H _] | [_ [H _]]]; [left | right]; exact H. }
    rewrite Hz, H1. split; [lia|].
    split; [intros [H | H]; congruence|].
    split; [|congruence].
    intros _. apply Hinv. unfold reranker_consistent.
    destruct Hafter as [[_ [H2 H3]] | [H2 _]].
    + intros _. split; assumption.
    + intros H. congruence.
Qed.

(** X13.  Over any run of calls of [rerank], from any state, the
    cross-encoder is built at most once; it is not built at all when the
    model is already loaded or the service is switched off. *)
Theorem encoder_built_at_most_once (calls : list (string * list Recipe * Z))
    (s : State X) :
  exists results s' evs,
    rerank_calls X calls s = (Ret results, s') /\
    trace s' = evs ++ trace s /\
    (loads evs <= 1)%nat /\
    (_model_loaded (reranker_service s) = true
     \/ enabled (reranker_service s) = false -> loads evs = 0%nat).
Proof.
  destruct (rerank_calls_effects calls s)
    as [results [s' [evs [H1 [H2 [H3 [H4 _]]]]]]].
  exists results, s', evs. repeat split; assumption.
Qed.

(** X14.  From a state in which the attributes of the reranker agree (as
    at start-up), they agree after any run of calls of [rerank], and then
    [is_loaded] answers what [_model_loaded] says. *)
Theorem reranker_stays_consistent (calls : list (string * list Recipe * Z))
    (s : State X) :
  reranker_consistent s ->
  exists results s',
    rerank_calls X calls s = (Ret results, s') /\
    reranker_consistent s' /\
    is_loaded s' = (Ret (_model_loaded (reranker_service s')), s').
Proof.
  intros Hc.
  destruct (rerank_calls_effects calls s)
    as [results [s' [evs [H1 [_ [_ [_ [Hinv _]]]]]]]].
  exists results, s'. split; [exact H1|].
  specialize (Hinv Hc). split; [exact Hinv|].
  unfold is_loaded, bind, get_reranker, ret. unfold reranker_consistent in Hinv.
  destruct (_model_loaded (reranker_service s')) eqn:El; [|reflexivity].
  destruct (Hinv eq_refl) as [He Hm]. rewrite He.
  destruct (model (reranker_service s')); [reflexivity | congruence].
Qed.
End RerankerExtras.

Lemma rerank_negative_top_k_witness :
  exists res s',
    RerankerService.rerank (X:=Demo.healthy) "Recipe with egg" Demo.corpus (-1)
      (Demo.start Demo.healthy tt) = (Ret res, s') /\
    Z.of_nat (length res) = Z.max 0 (Z.of_nat (length Demo.corpus) + -1).
Proof.
  apply (rerank_negative_top_k (X:=Demo.healthy));
    [exact healthy_one_score_per_pair | lia].
Defined.

Lemma scoring_failure_keeps_reranker_witness :
  exists res s',
    RerankerService.rerank (X:=Cases.no_scoring) "Recipe with egg" Demo.corpus
      2 (Demo.start Cases.no_scoring tt) = (Ret res, s') /\
    RerankerAttrs.enabled (reranker_service s') = true.
Proof.
  apply (scoring_failure_keeps_reranker (X:=Cases.no_scoring)).
  - reflexivity.
  - intros [_ [e [w H]]]. discriminate H.
Defined.

Lemma reranker_stays_consistent_witness :
  exists results s',
    rerank_calls Demo.healthy
      [("Recipe with egg", Demo.corpus, 2%Z); ("Recipe with milk", [], 5%Z)]
      (Demo.start Demo.healthy tt) = (Ret results, s') /\
    reranker_consistent s' /\
    RerankerService.is_loaded s'
    = (Ret (RerankerAttrs._model_loaded (reranker_service s')), s').
Proof.
  apply (reranker_stays_consistent (X:=Demo.healthy)).
  intros H. discriminate H.
Defined.

Lemma collect_nonnegative_witness :
  RAGPipeline.collect Demo.corpus [1; 7; 0]%Z []
  = Ret ([] ++
         flat_map
           (fun idx =>
              match nth_error Demo.corpus (Z.to_nat idx) with
              | Some recipe => [recipe]
              | None => []
              end) [1; 7; 0]%Z).
Proof.
  apply collect_nonnegative. repeat constructor; lia.
Defined.

(* ================================================================== *)
(** ** Beyond the specification: retrieval and the whole request *)
(* ================================================================== *)

(** X16.  One identifier below minus the size of the corpus makes the
    loop of [_retrieve] raise [IndexError], whatever the other identifiers
    are: all that the index found is then given up for the string
    matching. *)
Theorem collect_raises_below_range (all_recipes : list Recipe)
    (indices : list Z) (acc : list Recipe) :
  Exists (fun idx => (idx < - Z.of_nat (length all_recipes))%Z) indices ->
  RAGPipeline.collect all_recipes indices acc
  = Raise "IndexError: list index out of range".
Proof.
  revert acc. induction indices as [|idx rest IH]; intros acc H.
  - inversion H.
  - cbn [RAGPipeline.collect].
    destruct (Z.ltb_spec idx (Z.of_nat (length all_recipes))) as [Hlt|Hge].
    + destruct (PyList.index all_recipes idx) as [r|] eqn:Ei; [|reflexivity].
      apply IH. inversion H as [? ? Hh | ? ? Ht]; subst; [|exact Ht].
      exfalso. unfold PyList.index in Ei.
      destruct (Z.leb_spec 0 idx); [lia|].
      destruct (Z.leb_spec 0 (Z.of_nat (length all_recipes) + idx)); [lia|].
      discriminate.
    + apply IH. inversion H as [? ? Hh | ? ? Ht]; subst; [lia | exact Ht].
Qed.

Lemma collect_raises_below_range_witness :
  RAGPipeline.collect Demo.corpus [0; -4; 1]%Z []
  = Raise "IndexError: list index out of range".
Proof.
  apply collect_raises_below_range.
  apply Exists_cons_tl, Exists_cons_hd. simpl. lia.
Defined.

Section RetrievalExtras.
Context {X : Externals}.
Import RAGPipeline.

(** X17.  When the index is not loaded and the string matching raises,
    [_retrieve] calls the string matching a second time, with the same
    arguments, and its outcome is the outcome of that second call. *)
Theorem string_matching_is_tried_twice (user_ingredients : list string)
    (top_k : Z) (s : State X) (w1 w2 : World X) (e : exn) :
  faiss_is_loaded X (world s) = (Ret false, w1) ->
  find_suitable_recipes X user_ingredients false top_k w1 = (Raise e, w2) ->
  _retrieve user_ingredients top_k s
  = string_matching user_ingredients top_k
      (mkState w2 (reranker_service s) (llm_service s)
         (ELexicalSearch :: EIndexStatus :: trace s)).
Proof.
  intros Hl Hf.
  unfold _retrieve, try_except, bind at 1, call at 1. rewrite Hl. simpl.
  unfold string_matching at 1, bind, call. simpl. rewrite Hf. reflexivity.
Qed.
End RetrievalExtras.

Lemma string_matching_is_tried_twice_witness :
  RAGPipeline._retrieve (X:=Cases.flaky_corpus) ["egg"] 50
    (Demo.start Cases.flaky_corpus 0%nat)
  = RAGPipeline.string_matching (X:=Cases.flaky_corpus) ["egg"] 50
      (mkState (X:=Cases.flaky_corpus) 1%nat
         (reranker_service (Demo.start Cases.flaky_corpus 0%nat))
         (llm_service (Demo.start Cases.flaky_corpus 0%nat))
         (ELexicalSearch :: EIndexStatus
          :: trace (Demo.start Cases.flaky_corpus 0%nat))).
Proof.
  apply (string_matching_is_tried_twice (X:=Cases.flaky_corpus) ["egg"] 50
           (Demo.start Cases.flaky_corpus 0%nat) 0%nat 1%nat
           "RuntimeError: recipes not loaded").
  - reflexivity.
  - reflexivity.
Defined.

Section ProcessExtras.
Context {X : Externals}.
Import RAGPipeline.

(** The steps behind an answer of [process] that is not the empty one. *)
Lemma process_steps user_ingredients prefs excluded top_k explain
    retrieval_top_k (s : State X) r s' :
  process user_ingredients prefs excluded top_k explain retrieval_top_k s
  = (Ret r, s') ->
  (_retrieve user_ingredients retrieval_top_k s = (Ret [], s')
   /\ r = empty_result)
  \/
  (exists (retrieved : list Recipe) s1 (reranked : list (Recipe * R)) s2 s3,
      _retrieve user_ingredients retrieval_top_k s = (Ret retrieved, s1) /\
      retrieved <> [] /\
      _rerank user_ingredients retrieved top_k s1 = (Ret reranked, s2) /\
      (if explain
       then _generate user_ingredients reranked prefs excluded
       else ret None) s2 = (Ret (explanation r), s3) /\
      recipes r = map (annotated (str_lower X) user_ingredients) reranked /\
      dict_get (metadata r) "retrieval_count"
      = Some (MInt (Z.of_nat (length retrieved))) /\
      dict_get (metadata r) "reranked_count"
      = Some (MInt (Z.of_nat (length reranked))) /\
      llm_service s' = llm_service s3 /\
      reranker_service s' = reranker_service s3 /\
      trace s' = EIndexStatus :: trace s3).
Proof.
  unfold process. intros H.
  apply bind_ret_inv in H. destruct H as [retrieved [s1 [Hret H]]].
  destruct retrieved as [|r0 retrieved]; simpl in H.
  - left. unfold ret in H. injection H as <- <-. split; [exact Hret | reflexivity].
  - right.
    apply bind_ret_inv in H. destruct H as [reranked [s2 [Hrr H]]].
    apply bind_ret_inv in H. destruct H as [expl [s3 [Hg H]]].
    apply bind_ret_inv in H. destruct H as [b1 [s4 [Hc H]]].
    unfold bind, RerankerService.is_loaded, LLMService.is_available,
      get_reranker, get_llm, ret in H. injection H as <- <-.
    unfold call in Hc. destruct (faiss_is_loaded X (world s3)) as [o w].
    injection Hc as -> <-.
    exists (r0 :: retrieved), s1, reranked, s2, s3. simpl.
    split; [exact Hret|]. split; [discriminate|]. split; [exact Hrr|].
    split; [exact Hg|]. split; [rewrite annotate_loop_map; reflexivity|].
    repeat split; reflexivity.
Qed.

(** X18.  In every result of [process] the number of reranked recipes is
    at most the number retrieved, and at most [top_k] when [top_k] is not
    negative. *)
Theorem counts_are_ordered (user_ingredients : list string)
    (user_preferences : option Preferences)
    (excluded_ingredients : option (list string))
    (top_k : Z) (explain : bool) (retrieval_top_k : Z)
    (s s' : State X) (r : PipelineResult) :
  process user_ingredients user_preferences excluded_ingredients top_k
    explain retrieval_top_k s = (Ret r, s') ->
  exists retrieval_count reranked_count,
    dict_get (metadata r) "retrieval_count" = Some (MInt retrieval_count) /\
    dict_get (metadata r) "reranked_count" = Some (MInt reranked_count) /\
    (0 <= reranked_count <= retrieval_count)%Z /\
    ((0 <= top_k)%Z -> (reranked_count <= top_k)%Z).
Proof.
  intros H. apply process_steps in H.
  destruct H as [[_ ->] | [retrieved [s1 [reranked [s2 [s3
    [_ [_ [Hrr [_ [_ [Hc1 [Hc2 _]]]]]]]]]]]]].
  - exists 0%Z, 0%Z. repeat split; (reflexivity || lia).
  - exists (Z.of_nat (length retrieved)), (Z.of_nat (length reranked)).
    split; [exact Hc1|]. split; [exact Hc2|].
    rewrite _rerank_eq in Hrr. unfold RerankerService.rerank_by_ingredients in Hrr.
    destruct (rerank_within_candidates
                (RerankerService._prepare_query_text user_ingredients)
                retrieved top_k s1) as [res [s2' [Hr [_ [Hlen Hk]]]]].
    rewrite Hr in Hrr. injection Hrr as <- _.
    split; [lia | exact Hk].
Qed.

(** X19.  Every recipe of a result of [process] is one that retrieval
    returned for this request. *)
Theorem results_were_retrieved (user_ingredients : list string)
    (user_preferences : option Preferences)
    (excluded_ingredients : option (list string))
    (top_k : Z) (explain : bool) (retrieval_top_k : Z)
    (s s' : State X) (r : PipelineResult) :
  process user_ingredients user_preferences excluded_ingredients top_k
    explain retrieval_top_k s = (Ret r, s') ->
  exists retrieved s1,
    _retrieve user_ingredients retrieval_top_k s = (Ret retrieved, s1) /\
    forall rm, In rm (recipes r) -> In (base rm) retrieved.
Proof.
  intros H. apply process_steps in H.
  destruct H as [[Hret ->] | [retrieved [s1 [reranked [s2 [s3
    [Hret [_ [Hrr [_ [Hrec _]]]]]]]]]]].
  - exists [], s'. split; [exact Hret|]. intros rm [].
  - exists retrieved, s1. split; [exact Hret|].
    intros rm Hin. rewrite Hrec in Hin. apply in_map_iff in Hin.
    destruct Hin as [p [<- Hp]]. simpl.
    rewrite _rerank_eq in Hrr. unfold RerankerService.rerank_by_ingredients in Hrr.
    destruct (rerank_within_candidates
                (RerankerService._prepare_query_text user_ingredients)
                retrieved top_k s1) as [res [s2' [Hr [Hin _]]]].
    rewrite Hr in Hrr. injection Hrr as <- _.
    apply Hin. exact Hp.
Qed.
End ProcessExtras.

Section ProcessFrame.
Context {X : Externals}.
Import RAGPipeline.

Lemma forallb_weaken {A} (f g : A -> bool) (l : list A) :
  (forall x, f x = true -> g x = true) ->
  forallb f l = true -> forallb g l = true.
Proof.
  intros Hfg. induction l as [|x l IH]; [reflexivity|]. simpl.
  intros H. apply andb_true_iff in H. destruct H as [Hx Hl].
  rewrite (Hfg x Hx), (IH Hl). reflexivity.
Qed.

(** X20.  A request that asks for no explanation gets none, leaves the
    generator as it is and makes no call to the Gemini client. *)
Theorem no_explanation_no_generator_call (user_ingredients : list string)
    (user_preferences : option Preferences)
    (excluded_ingredients : option (list string))
    (top_k : Z) (retrieval_top_k : Z) (s s' : State X) (r : PipelineResult) :
  process user_ingredients user_preferences excluded_ingredients top_k
    false retrieval_top_k s = (Ret r, s') ->
  explanation r = None /\
  llm_service s' = llm_service s /\
  exists evs,
    trace s' = evs ++ trace s /\
    forallb (fun ev => negb (is_generator_event ev)) evs = true.
Proof.
  intros H. apply process_steps in H.
  assert (Hretr : forall ev, is_retrieval_event ev = true ->
                             negb (is_generator_event ev) = true)
    by (intros []; simpl; congruence).
  assert (Hrer : forall ev, is_reranker_event ev = true ->
                            negb (is_generator_event ev) = true)
    by (intros []; simpl; congruence).
  destruct H as [[Hret ->] | [retrieved [s1 [reranked [s2 [s3
    [Hret [_ [Hrr [Hg [_ [_ [_ [Hl [_ Ht]]]]]]]]]]]]]]].
  - split; [reflexivity|].
    destruct (_retrieve_retrieval_only user_ingredients retrieval_top_k _ _ _ Hret)
      as [_ [Hl [evs [Ht Hf]]]].
    split; [exact Hl|]. exists evs. split; [exact Ht|].
    eapply forallb_weaken; [exact Hretr | exact Hf].
  - unfold ret in Hg. injection Hg as He <-.
    destruct (_retrieve_retrieval_only user_ingredients retrieval_top_k _ _ _ Hret)
      as [_ [Hl1 [evs1 [Ht1 Hf1]]]].
    rewrite _rerank_eq in Hrr.
    unfold RerankerService.rerank_by_ingredients in Hrr.
    destruct (rerank_effects
                (RerankerService._prepare_query_text user_ingredients)
                retrieved top_k s1)
      as [res [s2' [evs2 [Hr [Ht2 [Hf2 [Hl2 _]]]]]]].
    rewrite Hr in Hrr. injection Hrr as _ <-.
    split; [symmetry; exact He|]. split; [congruence|].
    exists (EIndexStatus :: evs2 ++ evs1). split.
    + rewrite Ht, Ht2, Ht1. simpl. rewrite app_assoc. reflexivity.
    + simpl. rewrite forallb_app.
      rewrite (forallb_weaken _ _ _ Hrer Hf2), (forallb_weaken _ _ _ Hretr Hf1).
      reflexivity.
Qed.

Lemma contains_empty (s : string) : PyStr.contains "" s = true.
Proof. apply contains_spec. exists EmptyString, s. reflexivity. Qed.

(** X21.  An empty string among the user's ingredients matches every
    recipe: it is in [matchingIngredients] of every recipe of the result,
    whose [matchingCount] is then at least 1. *)
Theorem empty_ingredient_matches_everything (user_ingredients : list string)
    (user_preferences : option Preferences)
    (excluded_ingredients : option (list string))
    (top_k : Z) (explain : bool) (retrieval_top_k : Z)
    (s s' : State X) (r : PipelineResult) :
  In "" user_ingredients ->
  process user_ingredients user_preferences excluded_ingredients top_k
    explain retrieval_top_k s = (Ret r, s') ->
  forall rm, In rm (recipes r) ->
    In "" (matchingIngredients rm) /\ (1 <= matchingCount rm)%Z.
Proof.
  intros Hin H rm Hrm. apply process_inv in H.
  destruct H as [[_ ->] | [retrieved [reranked [_ [Hr _]]]]]; [destruct Hrm|].
  rewrite Hr in Hrm. apply in_map_iff in Hrm. destruct Hrm as [p [<- _]].
  unfold annotated. simpl.
  assert (Hm : In "" (matches (str_lower X) user_ingredients (fst p))).
  { unfold matches. apply filter_In. split; [exact Hin|].
    rewrite (str_lower_empty X). apply contains_empty. }
  split; [exact Hm|].
  destruct (matches (str_lower X) user_ingredients (fst p));
    [destruct Hm | simpl; lia].
Qed.

Lemma filter_length_bound {A} (f : A -> bool) (l : list A) :
  (length (filter f l) <= length l)%nat.
Proof.
  induction l as [|x l IH]; simpl; [lia|]. destruct (f x); simpl; lia.
Qed.

(** X22.  The [matchingCount] of every recipe of a result lies between 0
    and the number of ingredients the user gave. *)
Theorem matching_count_bounds (user_ingredients : list string)
    (user_preferences : option Preferences)
    (excluded_ingredients : option (list string))
    (top_k : Z) (explain : bool) (retrieval_top_k : Z)
    (s s' : State X) (r : PipelineResult) :
  process user_ingredients user_preferences excluded_ingredients top_k
    explain retrieval_top_k s = (Ret r, s') ->
  forall rm, In rm (recipes r) ->
    (0 <= matchingCount rm <= Z.of_nat (length user_ingredients))%Z.
Proof.
  intros H rm Hrm. apply process_inv in H.
  destruct H as [[_ ->] | [retrieved [reranked [_ [Hr _]]]]]; [destruct Hrm|].
  rewrite Hr in Hrm. apply in_map_iff in Hrm. destruct Hrm as [p [<- _]].
  unfold annotated, matches. simpl.
  pose proof (filter_length_bound
                (fun ingredient =>
                   PyStr.contains (str_lower X ingredient)
                     (str_lower X (Ingredients (fst p))))
                user_ingredients).
  lia.
Qed.
End ProcessFrame.

Lemma counts_are_ordered_witness :
  exists retrieval_count reranked_count,
    dict_get (metadata (Demo.answer empty_result Cases.plain_request))
      "retrieval_count" = Some (MInt retrieval_count) /\
    dict_get (metadata (Demo.answer empty_result Cases.plain_request))
      "reranked_count" = Some (MInt reranked_count) /\
    (0 <= reranked_count <= retrieval_count)%Z /\
    ((0 <= 1)%Z -> (reranked_count <= 1)%Z).
Proof.
  apply (counts_are_ordered (X:=Demo.healthy) ["egg"; "flour"] None None 1
           false 50 (Demo.start_without_reranker Demo.healthy tt)
           (snd Cases.plain_request)).
  reflexivity.
Defined.

Lemma results_were_retrieved_witness :
  exists retrieved s1,
    RAGPipeline._retrieve (X:=Demo.healthy) ["egg"; "flour"] 50
      (Demo.start_without_reranker Demo.healthy tt) = (Ret retrieved, s1) /\
    forall rm,
      In rm (recipes (Demo.answer empty_result Cases.plain_request)) ->
      In (base rm) retrieved.
Proof.
  apply (results_were_retrieved (X:=Demo.healthy) ["egg"; "flour"] None None 1
           false 50 (Demo.start_without_reranker Demo.healthy tt)
           (snd Cases.plain_request)).
  reflexivity.
Defined.

Lemma no_explanation_no_generator_call_witness :
  explanation (Demo.answer empty_result Cases.plain_request) = None /\
  llm_service (snd Cases.plain_request)
  = llm_service (Demo.start_without_reranker Demo.healthy tt) /\
  exists evs,
    trace (snd Cases.plain_request)
    = evs ++ trace (Demo.start_without_reranker Demo.healthy tt) /\
    forallb (fun ev => negb (is_generator_event ev)) evs = true.
Proof.
  apply (no_explanation_no_generator_call (X:=Demo.healthy) ["egg"; "flour"]
           None None 1 50 (Demo.start_without_reranker Demo.healthy tt)).
  reflexivity.
Defined.

Lemma empty_ingredient_matches_everything_witness :
  Forall
    (fun rm => In "" (matchingIngredients rm) /\ (1 <= matchingCount rm)%Z)
    (recipes (Demo.answer empty_result Cases.blank_request)).
Proof.
  apply Forall_forall.
  apply (empty_ingredient_matches_everything (X:=Demo.healthy) [""; "egg"]
           None None 10 true 50 (Demo.start_without_reranker Demo.healthy tt)
           (snd Cases.blank_request)).
  - left. reflexivity.
  - reflexivity.
Defined.

Lemma matching_count_bounds_witness :
  Forall
    (fun rm => (0 <= matchingCount rm <= Z.of_nat (length [""; "egg"]))%Z)
    (recipes (Demo.answer empty_result Cases.blank_request)).
Proof.
  apply Forall_forall.
  apply (matching_count_bounds (X:=Demo.healthy) [""; "egg"] None None 10 true
           50 (Demo.start_without_reranker Demo.healthy tt)
           (snd Cases.blank_request)).
  reflexivity.
Defined.

(* ================================================================== *)
(** ** Beyond the specification: the size of the prompt *)
(* ================================================================== *)




